(** * Books-to-Scrape scraper: price normalisation, page extraction, pagination

    A shallow embedding of [scrape_books.py].  Python [str] values are lists
    of Unicode code points, Python [float] values are binary64 numbers in the
    [spec_float] representation of the Standard Library, Python [int] values
    are [Z], and [None] is the [None] of [option]. *)

From Stdlib Require Import List ZArith NArith Bool Lia String Ascii.
From Stdlib Require Import Floats.SpecFloat Floats.PrimFloat Floats.FloatOps.
Import ListNotations.

(* Decimal literals such as 51.77 stand for the nearest binary64 number. *)
Set Warnings "-inexact-float".

Local Open Scope N_scope.

(** ** Python strings *)

Module PyStr.

(** A character is its code point. *)
Abbreviation char := N.
Abbreviation pystr := (list N).

(** An ASCII literal as a Python string. *)
Definition str (s : string) : pystr :=
  List.map N_of_ascii (list_ascii_of_string s).

Definition comma : char := 44.
Definition period : char := 46.
(** U+00A3 POUND SIGN and U+00C2 LATIN CAPITAL LETTER A WITH CIRCUMFLEX. *)
Definition pound : char := 163.
Definition a_circ : char := 194.

(** [a == b] *)
Fixpoint pystr_eqb (a b : pystr) : bool :=
  match a, b with
  | [], [] => true
  | x :: a', y :: b' => (x =? y) && pystr_eqb a' b'
  | _, _ => false
  end.

(** [s.startswith(p)] *)
Fixpoint starts_with (p s : pystr) : bool :=
  match p, s with
  | [], _ => true
  | _ :: _, [] => false
  | a :: p', b :: s' => (a =? b) && starts_with p' s'
  end.

(** [sub in s] *)
Fixpoint str_contains (sub s : pystr) : bool :=
  match s with
  | [] => starts_with sub []
  | _ :: t => starts_with sub s || str_contains sub t
  end.

(** [s.replace(old, new)]: one pass from the left over non-overlapping
    occurrences.  [skip] counts the characters of a matched occurrence that
    are still to be passed over. *)
Fixpoint replace_aux (old new : pystr) (skip : nat) (s : pystr) : pystr :=
  match s with
  | [] => []
  | c :: t =>
      match skip with
      | S k => replace_aux old new k t
      | O =>
          if starts_with old s
          then new ++ replace_aux old new (Nat.pred (List.length old)) t
          else c :: replace_aux old new O t
      end
  end.

Definition str_replace (old new s : pystr) : pystr :=
  match old with
  | [] => new ++ List.concat (List.map (fun c => c :: new) s)
  | _ :: _ => replace_aux old new O s
  end.

(** [s.count(sub)]: number of non-overlapping occurrences. *)
Fixpoint count_aux (sub : pystr) (skip : nat) (s : pystr) : Z :=
  match s with
  | [] => 0%Z
  | _ :: t =>
      match skip with
      | S k => count_aux sub k t
      | O =>
          if starts_with sub s
          then (1 + count_aux sub (Nat.pred (List.length sub)) t)%Z
          else count_aux sub O t
      end
  end.

Definition str_count (sub s : pystr) : Z :=
  match sub with
  | [] => (Z.of_nat (List.length s) + 1)%Z
  | _ :: _ => count_aux sub O s
  end.

(** [s.rfind(sub)]: the highest index at which [sub] starts, or -1. *)
Fixpoint rfind_from (sub s : pystr) (i acc : Z) : Z :=
  match s with
  | [] => if starts_with sub [] then i else acc
  | _ :: t => rfind_from sub t (i + 1)%Z (if starts_with sub s then i else acc)
  end.

Definition str_rfind (sub s : pystr) : Z := rfind_from sub s 0%Z (-1)%Z.

(** [str.isspace] on one code point. *)
Definition is_space (c : char) : bool :=
  ((9 <=? c) && (c <=? 13)) || ((28 <=? c) && (c <=? 32))
  || (c =? 133) || (c =? 160) || (c =? 5760)
  || ((8192 <=? c) && (c <=? 8202)) || (c =? 8232) || (c =? 8233)
  || (c =? 8239) || (c =? 8287) || (c =? 12288).

Fixpoint lstrip (s : pystr) : pystr :=
  match s with
  | [] => []
  | c :: t => if is_space c then lstrip t else s
  end.

(** [s.strip()] *)
Definition str_strip (s : pystr) : pystr :=
  List.rev (lstrip (List.rev (lstrip s))).

(** Truth value of a string: the empty string is false. *)
Definition truthy (s : pystr) : bool :=
  match s with [] => false | _ :: _ => true end.

End PyStr.
Import PyStr.

(** ** Python floats *)

Module PyFloat.

Definition float := spec_float.

Definition prec : Z := 53.
Definition emax : Z := 1024.

(** The binary64 number nearest to [m / 10^k] (ties to even): the value that
    [float] gives to a decimal numeral with digits [m] of which [k] follow the
    point.  The quotient of the two integers is rounded once. *)
Fixpoint pow10 (k : nat) : positive :=
  match k with
  | O => 1%positive
  | S k' => (10 * pow10 k')%positive
  end.

Definition of_decimal (m : N) (k : nat) : float :=
  match m with
  | N0 => S754_zero false
  | Npos p => SFdiv prec emax (S754_finite false p 0)
                (S754_finite false (pow10 k) 0)
  end.

(** [a <= b] on floats; false as soon as one side is a NaN. *)
Definition leb (a b : float) : bool := SFleb a b.

End PyFloat.
Import PyFloat.

(** ** [float(s)] on the strings [parse_price] builds *)

Module FloatParse.

Definition is_digit (c : char) : bool := (48 <=? c) && (c <=? 57).

(** Longest prefix of decimal digits, and what follows it. *)
Fixpoint span_digits (s : pystr) : pystr * pystr :=
  match s with
  | [] => ([], [])
  | c :: t =>
      if is_digit c
      then let (d, r) := span_digits t in (c :: d, r)
      else ([], s)
  end.

(** Value of a digit string, most significant digit first. *)
Definition digits_value (ds : pystr) : N :=
  List.fold_left (fun acc c => 10 * acc + (c - 48)) ds 0.

(** [float(s)] for a string over the alphabet [0-9.], the only strings that
    [parse_price] passes to it: digits with at most one point and at least
    one digit.  [None] stands for the [ValueError] that [float] raises. *)
Definition py_float (s : pystr) : option float :=
  let (ip, r1) := span_digits s in
  match r1 with
  | [] =>
      match ip with
      | [] => None
      | _ :: _ => Some (of_decimal (digits_value ip) 0)
      end
  | c :: r2 =>
      if c =? period then
        let (fp, r3) := span_digits r2 in
        match r3, ip ++ fp with
        | [], _ :: _ =>
            Some (of_decimal (digits_value (ip ++ fp)) (List.length fp))
        | _, _ => None
        end
      else None
  end.

End FloatParse.
Import FloatParse.

(** ** Price normaliser *)

(** The character class [[0-9.,]]. *)
Definition price_char (c : char) : bool :=
  is_digit c || (c =? period) || (c =? comma).

(** [re.sub(r"[^0-9.,]", '', raw)] *)
Definition clean (raw : pystr) : pystr := List.filter price_char raw.

(** Lines 165-171: the string handed to [float]. *)
Definition normalize_separators (s : pystr) : pystr :=
  if negb (str_count [comma] s =? 0)%Z && negb (str_count [period] s =? 0)%Z
  then
    if (str_rfind [comma] s >? str_rfind [period] s)%Z
    then str_replace [comma] [period] (str_replace [period] [] s)
    else str_replace [comma] [] s
  else str_replace [comma] [period] s.

(** [parse_price(raw)]; the argument is [None] when the caller passes
    [None].  Every exception of the [try] block becomes [None]. *)
Definition parse_price (raw : option pystr) : option float :=
  match raw with
  | None => None
  | Some [] => None
  | Some r => py_float (normalize_separators (clean r))
  end.

(** ** Relative-URL resolution *)

Module UrlJoin.

Definition slash : char := 47.
Definition colon : char := 58.
Definition question : char := 63.
Definition hash : char := 35.

Definition is_alpha (c : char) : bool :=
  ((65 <=? c) && (c <=? 90)) || ((97 <=? c) && (c <=? 122)).

Definition scheme_char (c : char) : bool :=
  is_alpha c || is_digit c || (c =? 43) || (c =? 45) || (c =? 46).

Definition lower (c : char) : char :=
  if (65 <=? c) && (c <=? 90) then c + 32 else c.

(** Split at the first character satisfying [p]: what precedes it, and the
    rest from that character on ([None] when there is none). *)
Fixpoint break_at (p : char -> bool) (s : pystr) : pystr * option pystr :=
  match s with
  | [] => ([], None)
  | c :: t =>
      if p c then ([], Some s)
      else let (a, r) := break_at p t in (c :: a, r)
  end.

(** [s.split(sep)] for a one-character separator. *)
Fixpoint split_on (sep : char) (s : pystr) : list pystr :=
  match s with
  | [] => [[]]
  | c :: t =>
      if c =? sep then [] :: split_on sep t
      else match split_on sep t with
           | [] => [[c]]
           | seg :: segs => (c :: seg) :: segs
           end
  end.

(** [sep.join(parts)] *)
Fixpoint join_with (sep : char) (parts : list pystr) : pystr :=
  match parts with
  | [] => []
  | [p] => p
  | p :: ps => p ++ sep :: join_with sep ps
  end.

Definition uses_relative : list pystr :=
  List.map str
    [EmptyString; "ftp"; "http"; "gopher"; "nntp"; "imap"; "wais"; "file";
     "https";
     "shttp"; "mms"; "prospero"; "rtsp"; "rtsps"; "rtspu"; "sftp"; "svn";
     "svn+ssh"; "ws"; "wss"]%string.

Definition uses_netloc : list pystr :=
  List.map str
    [EmptyString; "ftp"; "http"; "gopher"; "nntp"; "telnet"; "imap"; "wais";
     "file";
     "mms"; "https"; "shttp"; "snews"; "prospero"; "rtsp"; "rtsps"; "rtspu";
     "rsync"; "svn"; "svn+ssh"; "sftp"; "nfs"; "git"; "git+ssh"; "ws";
     "wss"]%string.

Definition mem (s : pystr) (l : list pystr) : bool :=
  List.existsb (pystr_eqb s) l.

Record SplitResult := {
  scheme : pystr; netloc : pystr; path : pystr;
  query : pystr; fragment : pystr }.

Definition drop_first (s : pystr) : pystr :=
  match s with [] => [] | _ :: t => t end.

(** A scheme is taken off when a colon follows a non-empty run of scheme
    characters that starts with a letter. *)
Definition split_scheme (url default : pystr) : pystr * pystr :=
  match break_at (fun c => c =? colon) url with
  | (c :: pre, Some rest) =>
      if is_alpha c && List.forallb scheme_char (c :: pre)
      then (List.map lower (c :: pre), drop_first rest)
      else (default, url)
  | _ => (default, url)
  end.

Definition split_netloc (url : pystr) : pystr * pystr :=
  if starts_with [slash; slash] url then
    match break_at (fun c => (c =? slash) || (c =? question) || (c =? hash))
            (List.skipn 2 url) with
    | (n, Some rest) => (n, rest)
    | (n, None) => (n, [])
    end
  else ([], url).

Definition split_off (sep : char) (url : pystr) : pystr * pystr :=
  match break_at (fun c => c =? sep) url with
  | (a, Some rest) => (a, drop_first rest)
  | (a, None) => (a, [])
  end.

Definition urlsplit (url default : pystr) : SplitResult :=
  let (sch, u1) := split_scheme url default in
  let (net, u2) := split_netloc u1 in
  let (u3, frag) := split_off hash u2 in
  let (pth, qry) := split_off question u3 in
  {| scheme := sch; netloc := net; path := pth;
     query := qry; fragment := frag |}.

Definition urlunsplit (r : SplitResult) : pystr :=
  let url := path r in
  let url :=
    if truthy (netloc r)
       || (truthy (scheme r) && mem (scheme r) uses_netloc
           && negb (starts_with [slash; slash] url))
    then
      let url :=
        if truthy url && negb (starts_with [slash] url)
        then slash :: url else url in
      slash :: slash :: netloc r ++ url
    else url in
  let url := if truthy (scheme r) then scheme r ++ colon :: url else url in
  let url := if truthy (query r) then url ++ question :: query r else url in
  if truthy (fragment r) then url ++ hash :: fragment r else url.

(** [segments[1:-1] = filter(None, segments[1:-1])] *)
Definition drop_empty_middle (segs : list pystr) : list pystr :=
  match segs with
  | first :: (_ :: _) as rest =>
      first :: List.filter truthy (List.removelast rest)
        ++ [List.last rest []]
  | _ => segs
  end.

Definition dot : pystr := [period].
Definition dotdot : pystr := [period; period].

(** The loop over the segments: [..] pops, [.] is skipped. *)
Fixpoint resolve_segments (segs resolved : list pystr) : list pystr :=
  match segs with
  | [] => resolved
  | seg :: rest =>
      if pystr_eqb seg dotdot then resolve_segments rest (List.removelast resolved)
      else if pystr_eqb seg dot then resolve_segments rest resolved
      else resolve_segments rest (resolved ++ [seg])
  end.

(** Modelled from the spec: [urllib.parse.urljoin], a function of the Python
    standard library that the repository only calls; the spec asks for
    standard relative-URL resolution of relative paths, scheme-relative and
    already-absolute references.  The model follows the library's algorithm
    (split base and reference, keep a reference with its own scheme or
    authority, otherwise merge the paths and remove dot segments); it keeps
    path parameters inside the last path segment and does not strip control
    characters or validate the authority. *)
Definition urljoin (base url : pystr) : pystr :=
  if negb (truthy base) then url
  else if negb (truthy url) then base
  else
    let b := urlsplit base [] in
    let u := urlsplit url (scheme b) in
    if negb (pystr_eqb (scheme u) (scheme b)) || negb (mem (scheme u) uses_relative)
    then url
    else if mem (scheme u) uses_netloc && truthy (netloc u)
    then urlunsplit u
    else
      let net := if mem (scheme u) uses_netloc then netloc b else netloc u in
      if negb (truthy (path u)) then
        urlunsplit {| scheme := scheme u; netloc := net; path := path b;
                      query := if truthy (query u) then query u else query b;
                      fragment := fragment u |}
      else
        let base_parts := split_on slash (path b) in
        let base_parts :=
          if truthy (List.last base_parts []) then List.removelast base_parts
          else base_parts in
        let segments :=
          if starts_with [slash] (path u) then split_on slash (path u)
          else drop_empty_middle (base_parts ++ split_on slash (path u)) in
        let resolved := resolve_segments segments [] in
        let last_seg := List.last segments [] in
        let resolved :=
          if pystr_eqb last_seg dot || pystr_eqb last_seg dotdot
          then resolved ++ [[]] else resolved in
        let joined := join_with slash resolved in
        urlunsplit {| scheme := scheme u; netloc := net;
                      path := if truthy joined then joined else [slash];
                      query := query u; fragment := fragment u |}.

End UrlJoin.

(** ** Exceptions and results *)

Inductive http_failure :=
  | ConnectionFailed
  | TimedOut
  | BadStatus (code : Z).

Inductive exn :=
  | RequestError (f : http_failure)
  | AttributeError
  | KeyError
  | ValueError
  | OverflowError
  | TypeError
  | OSError.

Inductive result (A : Type) :=
  | Ok (a : A)
  | Raise (e : exn).
Arguments Ok {A} a.
Arguments Raise {A} e.

Definition rbind {A B} (r : result A) (k : A -> result B) : result B :=
  match r with
  | Ok a => k a
  | Raise e => Raise e
  end.

Declare Scope py_scope.
Delimit Scope py_scope with py.
Notation "x <-? r ;; k" := (rbind r (fun x => k))
  (at level 61, r at next level, right associativity) : py_scope.

(** ** The parsed page *)

(** An [<a>] element: its [title] and [href] attributes, when present. *)
Record Anchor := {
  a_title : option pystr;
  a_href : option pystr }.

Record H3 := { h3_a : option Anchor }.

(** One [article.product_pod]: [card.h3], and the stripped text of the first
    [.price_color] and [.instock.availability] descendants, [None] when
    [select_one] finds no such element. *)
Record Card := {
  card_h3 : option H3;
  card_price_color : option pystr;
  card_instock : option pystr }.

(** What the extractor reads of the soup: the cards in document order and the
    first [li.next a]. *)
Record Soup := {
  soup_cards : list Card;
  soup_next_a : option Anchor }.

Record Row := {
  title : pystr;
  price_raw : pystr;
  price_value : option float;
  stock : pystr;
  url : pystr }.

(** [elem.attr] and [elem.get_text] on a possibly missing element. *)
Definition attribute_of {A B} (o : option A) (f : A -> B) : result B :=
  match o with
  | Some a => Ok (f a)
  | None => Raise AttributeError
  end.

(** [tag.get(name, default)] *)
Definition attr_get (a : option pystr) (default : pystr) : pystr :=
  match a with
  | Some v => v
  | None => default
  end.

(** The mis-decoded pound sign: U+00C2 U+00A3. *)
Definition mojibake : pystr := [a_circ; pound].

(** Lines 194-196. *)
Definition fix_pound (price : pystr) : pystr :=
  let price :=
    if str_contains mojibake price
    then str_replace mojibake [pound] price
    else price in
  str_replace [pound] [pound] price.

(** Line 202. *)
Definition passes_filter (max_price pv : option float) : bool :=
  match max_price with
  | None => true
  | Some m =>
      match pv with
      | Some v => PyFloat.leb v m
      | None => false
      end
  end.

Section Extractor.

Variable urljoin : pystr -> pystr -> pystr.

Local Open Scope py_scope.

(** Lines 191-200: the fields of one card. *)
Definition extract_card (page_url : pystr) (card : Card) : result Row :=
  h3 <-? attribute_of (card_h3 card) (fun h => h) ;;
  a <-? attribute_of (h3_a h3) (fun a => a) ;;
  let title := str_strip (attr_get (a_title a) []) in
  price <-? attribute_of (card_price_color card) (fun t => t) ;;
  let price := fix_pound price in
  stock <-? attribute_of (card_instock card) (fun t => t) ;;
  let rel_link := attr_get (a_href a) [] in
  let full_url := urljoin page_url rel_link in
  let price_value := parse_price (Some price) in
  Ok {| title := title; price_raw := price; price_value := price_value;
        stock := stock; url := full_url |}.

(** Lines 189-203: the loop over the cards, [rows] being the list built so
    far. *)
Fixpoint scrape_cards (page_url : pystr) (max_price : option float)
    (cards : list Card) (rows : list Row) : result (list Row) :=
  match cards with
  | [] => Ok rows
  | card :: rest =>
      row <-? extract_card page_url card ;;
      if passes_filter max_price (price_value row)
      then scrape_cards page_url max_price rest (rows ++ [row])
      else scrape_cards page_url max_price rest rows
  end.

(** Lines 207-208. *)
Definition next_link (page_url : pystr) (soup : Soup) : result (option pystr) :=
  match soup_next_a soup with
  | Some next_a =>
      match a_href next_a with
      | Some href => Ok (Some (urljoin page_url href))
      | None => Raise KeyError
      end
  | None => Ok None
  end.

(** Lines 187-209: everything after the download. *)
Definition extract_page (page_url : pystr) (max_price : option float)
    (soup : Soup) : result (list Row * option pystr) :=
  rows <-? scrape_cards page_url max_price (soup_cards soup) [] ;;
  next_url <-? next_link page_url soup ;;
  Ok (rows, next_url).

End Extractor.

(** ** The run: output file, requests, waits, messages *)

Inductive csv_line :=
  | HeaderLine (cols : list pystr)
  | RowLine (r : Row).

Inductive message :=
  | MsgPage (page_num : Z) (n : Z)
  | MsgSaved (total : Z).

Inductive event :=
  | EvGet (u : pystr)
  | EvSleep (d : float)
  | EvPrint (m : message).

(** The output file as it is once closed, and what the run did so far. *)
Record World := {
  w_file : list csv_line;
  w_trace : list event }.

Definition M (A : Type) : Type := World -> result A * World.

Definition ret {A} (a : A) : M A := fun w => (Ok a, w).

Definition raise {A} (e : exn) : M A := fun w => (Raise e, w).

Definition bind {A B} (m : M A) (k : A -> M B) : M B :=
  fun w =>
    match m w with
    | (Ok a, w') => k a w'
    | (Raise e, w') => (Raise e, w')
    end.

Definition lift {A} (r : result A) : M A := fun w => (r, w).

Notation "x <- m ;; k" := (bind m (fun x => k))
  (at level 61, m at next level, right associativity) : py_scope.
Notation "m ;; k" := (bind m (fun _ => k))
  (at level 61, right associativity) : py_scope.

Definition emit (e : event) : M unit :=
  fun w => (Ok tt, {| w_file := w_file w; w_trace := w_trace w ++ [e] |}).

Definition is_get (e : event) : bool :=
  match e with EvGet _ => true | _ => false end.

Definition is_sleep (e : event) : bool :=
  match e with EvSleep _ => true | _ => false end.

Definition count_gets (tr : list event) : nat :=
  List.length (List.filter is_get tr).

Definition count_sleeps (tr : list event) : nat :=
  List.length (List.filter is_sleep tr).

(** [open(out_path, "w", ...)]: the file is emptied. *)
Definition open_w : M unit :=
  fun w => (Ok tt, {| w_file := []; w_trace := w_trace w |}).

(** [writer.writerow] and [writer.writerows] *)
Definition write_lines (ls : list csv_line) : M unit :=
  fun w => (Ok tt, {| w_file := w_file w ++ ls; w_trace := w_trace w |}).

Definition print (m : message) : M unit := emit (EvPrint m).

Definition header : list pystr :=
  List.map str ["title"; "price_raw"; "price_value"; "stock"; "url"]%string.

(** [range(lo, hi)] *)
Definition py_range (lo hi : Z) : list Z :=
  List.map (fun i => (lo + Z.of_nat i)%Z) (List.seq 0 (Z.to_nat (hi - lo))).

(** The namespace that [parse_args] returns (lines 142-149). *)
Record Args := {
  pages : Z;
  max_price : option float;
  out : pystr;
  delay : float;
  start_url : pystr;
  sep : pystr }.

(** The loop variables that outlive an iteration. *)
Record LoopVars := {
  total : Z;
  current : pystr }.

(** How the [for] loop was left: by [break], or by running out of page
    numbers. *)
Inductive loop_exit := Broke | Exhausted.

(** [if not next_url: break]: the URL to go on with, [None] when [next_url]
    is [None] or the empty string. *)
Definition next_page (next_url : option pystr) : option pystr :=
  match next_url with
  | Some u => if truthy u then Some u else None
  | None => None
  end.

Section Driver.

Variable urljoin : pystr -> pystr -> pystr.
(** The HTTP collaborator: what the [n]-th request of the run, for a URL,
    gives: a failure of [requests.get] or [raise_for_status], or the soup
    parsed from the body. *)
Variable http_get : nat -> pystr -> http_failure + Soup.
(** What [time.sleep] raises for a delay, [None] when it returns. *)
Variable sleep_check : float -> option exn.
(** What [resolve_output_path] and [open] raise for the [--out] argument,
    [None] when the file is opened. *)
Variable open_check : pystr -> option exn.
(** What [csv.writer] raises for the delimiter, [None] when it builds the
    writer. *)
Variable writer_check : pystr -> option exn.

Local Open Scope py_scope.

(** Lines 184-187. *)
Definition fetch (page_url : pystr) : M Soup :=
  fun w =>
    let w' := {| w_file := w_file w; w_trace := w_trace w ++ [EvGet page_url] |} in
    match http_get (count_gets (w_trace w)) page_url with
    | inl f => (Raise (RequestError f), w')
    | inr soup => (Ok soup, w')
    end.

Definition scrape_one_page (page_url : pystr) (max_price : option float)
    : M (list Row * option pystr) :=
  soup <- fetch page_url ;;
  lift (extract_page urljoin page_url max_price soup).

(** [time.sleep(d)] *)
Definition sleep (d : float) : M unit :=
  emit (EvSleep d) ;;
  match sleep_check d with
  | Some e => raise e
  | None => ret tt
  end.

(** Lines 235-244: the [for] loop over the page numbers still to come. *)
Fixpoint page_loop (args : Args) (page_nums : list Z) (vars : LoopVars)
    : M (loop_exit * LoopVars) :=
  match page_nums with
  | [] => ret (Exhausted, vars)
  | page_num :: later =>
      rn <- scrape_one_page (current vars) (max_price args) ;;
      let rows := fst rn in
      let next_url := snd rn in
      write_lines (List.map RowLine rows) ;;
      let total := (total vars + Z.of_nat (List.length rows))%Z in
      print (MsgPage page_num (Z.of_nat (List.length rows))) ;;
      match next_page next_url with
      | None => ret (Broke, {| total := total; current := current vars |})
      | Some next_url =>
          sleep (delay args) ;;
          page_loop args later {| total := total; current := next_url |}
      end
  end.

(** Lines 230-231: the output path is resolved and the file opened for
    writing; nothing is touched when that raises. *)
Definition open_out (path : pystr) : M unit :=
  match open_check path with
  | Some e => raise e
  | None => open_w
  end.

(** Line 232: [csv.writer(f, delimiter=args.sep)]. *)
Definition make_writer (delimiter : pystr) : M unit :=
  match writer_check delimiter with
  | Some e => raise e
  | None => ret tt
  end.

(** Lines 224-246. *)
Definition main (args : Args) : M unit :=
  let vars := {| total := 0; current := start_url args |} in
  open_out (out args) ;;
  make_writer (sep args) ;;
  write_lines [HeaderLine header] ;;
  ev <- page_loop args (py_range 1 (pages args + 1)) vars ;;
  print (MsgSaved (total (snd ev))).

(** [main] from the point where the file is open and the writer built:
    line 231 without failure, then lines 233-246. *)
Definition main_with_writer (args : Args) : M unit :=
  let vars := {| total := 0; current := start_url args |} in
  open_w ;;
  write_lines [HeaderLine header] ;;
  ev <- page_loop args (py_range 1 (pages args + 1)) vars ;;
  print (MsgSaved (total (snd ev))).

End Driver.

(** * Vocabulary of the statements *)

(** A decimal literal of Rocq as a Python float. *)
Definition lit (x : PrimFloat.float) : float := Prim2SF x.

(** ** Separators and numerals *)

Definition is_separator (c : char) : bool := (c =? comma) || (c =? period).

(** The separator that occurs last in a string, if any. *)
Definition last_separator (s : pystr) : option char :=
  List.find is_separator (List.rev s).

Definition comma_to_period (c : char) : char :=
  if c =? comma then period else c.

Definition without (c : char) (s : pystr) : pystr :=
  List.filter (fun x => negb (x =? c)) s.

(** A decimal numeral: digits and points only, at most one point, at least
    one digit. *)
Definition decimal_numeral (s : pystr) : bool :=
  List.forallb (fun c => is_digit c || (c =? period)) s
  && (List.length (List.filter (N.eqb period) s) <=? 1)%nat
  && List.existsb is_digit s.

(** ** Rows and filter *)

Local Open Scope py_scope.

(** The rows of all cards, filter left aside. *)
Fixpoint extract_all (urljoin : pystr -> pystr -> pystr) (page_url : pystr)
    (cards : list Card) : result (list Row) :=
  match cards with
  | [] => Ok []
  | card :: rest =>
      row <-? extract_card urljoin page_url card ;;
      more <-? extract_all urljoin page_url rest ;;
      Ok (row :: more)
  end.

Definition keeps (max_price : option float) (r : Row) : bool :=
  passes_filter max_price (price_value r).

(** The filter policy in the words of the specification. *)
Definition filter_policy (max_price : option float) (r : Row) : Prop :=
  max_price = None
  \/ exists v m, price_value r = Some v /\ max_price = Some m
                 /\ PyFloat.leb v m = true.

(** A card on which a field access of lines 191-198 fails. *)
Definition lacks_element (card : Card) : Prop :=
  card_h3 card = None
  \/ (exists h3, card_h3 card = Some h3 /\ h3_a h3 = None)
  \/ card_price_color card = None
  \/ card_instock card = None.

(** ** Worlds *)

(** The world after further events. *)
Definition logged (w : World) (evs : list event) : World :=
  {| w_file := w_file w; w_trace := w_trace w ++ evs |}.

(** The world after further rows in the file and further events. *)
Definition advanced (w : World) (rows : list Row) (evs : list event) : World :=
  {| w_file := w_file w ++ List.map RowLine rows; w_trace := w_trace w ++ evs |}.

(** A run starts with some old content at the output path and nothing done. *)
Definition initial (old : list csv_line) : World :=
  {| w_file := old; w_trace := [] |}.

(** The world in which the loop starts: header written, nothing done yet. *)
Definition opened : World :=
  {| w_file := [HeaderLine header]; w_trace := [] |}.

(** The loop variables before the first iteration. *)
Definition vars0 (args : Args) : LoopVars :=
  {| total := 0; current := start_url args |}.

(** The events up to the first request. *)
Fixpoint until_get (tr : list event) : list event :=
  match tr with
  | [] => []
  | e :: t => if is_get e then [] else e :: until_get t
  end.

(** The number of waits after the last request of a trace. *)
Definition trailing_waits (tr : list event) : nat :=
  count_sleeps (until_get (List.rev tr)).

(** What the events of a finished loop look like, by the way it ended. *)
Definition loop_done (args : Args) (nums : list Z)
    (r : result (loop_exit * LoopVars)) (evs : list event) : Prop :=
  match r with
  | Ok (Exhausted, _) =>
      count_gets evs = List.length nums
      /\ count_sleeps evs = List.length nums
      /\ (nums <> [] ->
          exists pre u m,
            evs = pre ++ [EvGet u; EvPrint m; EvSleep (delay args)])
  | Ok (Broke, _) =>
      (count_sleeps evs + 1)%nat = count_gets evs
      /\ exists pre u m, evs = pre ++ [EvGet u; EvPrint m]
  | Raise _ => True
  end.

(** ** Vocabulary of the further properties *)

(** How often a character occurs in a string. *)
Definition occurrences (c : char) (s : pystr) : nat :=
  List.length (List.filter (N.eqb c) s).

(** A float that is a zero, a finite number or an infinity with the sign bit
    clear: neither negative nor a NaN. *)
Definition nonnegative (v : float) : bool :=
  match v with
  | S754_zero false | S754_infinity false | S754_finite false _ _ => true
  | _ => false
  end.

(** A text that starts, or ends, with whitespace. *)
Definition starts_with_space (s : pystr) : bool :=
  match s with
  | c :: _ => is_space c
  | [] => false
  end.

Definition ends_with_space (s : pystr) : bool :=
  starts_with_space (List.rev s).

(** The rows announced by the page messages of a trace, added up. *)
Fixpoint printed_rows (tr : list event) : Z :=
  match tr with
  | [] => 0%Z
  | EvPrint (MsgPage _ n) :: t => (n + printed_rows t)%Z
  | _ :: t => printed_rows t
  end.

(** The requests and waits of a trace, in order. *)
Definition is_io (e : event) : bool := is_get e || is_sleep e.

Definition io_events (tr : list event) : list event := List.filter is_io tr.

(** The same arguments with another page budget, or another maximum
    price. *)
Definition with_pages (args : Args) (n : Z) : Args :=
  {| pages := n; max_price := max_price args; out := out args;
     delay := delay args; start_url := start_url args; sep := sep args |}.

Definition with_max_price (args : Args) (limit : option float) : Args :=
  {| pages := pages args; max_price := limit; out := out args;
     delay := delay args; start_url := start_url args; sep := sep args |}.

(** How a loop ended, without its total. *)
Definition outline (r : result (loop_exit * LoopVars))
    : result (loop_exit * pystr) :=
  match r with
  | Ok (ex, vars) => Ok (ex, current vars)
  | Raise e => Raise e
  end.

(** ** Sample markup *)

Definition sample_anchor (href : pystr) : Anchor :=
  {| a_title := Some (str " A Light in the Attic "); a_href := Some href |}.

Definition sample_card (href price : pystr) : Card :=
  {| card_h3 := Some {| h3_a := Some (sample_anchor href) |};
     card_price_color := Some price;
     card_instock := Some (str "In stock") |}.

Definition card_without_price : Card :=
  {| card_h3 := Some {| h3_a := Some (sample_anchor (str "item_2/index.html")) |};
     card_price_color := None;
     card_instock := Some (str "In stock") |}.

Definition sample_page_url : pystr :=
  str "https://example.com/catalogue/page-1.html".

(** The rows of an extraction, none when it raised. *)
Definition rows_of (r : result (list Row * option pystr)) : list Row :=
  match r with
  | Ok (rows, _) => rows
  | Raise _ => []
  end.

(** A two-page catalogue: three cards and a next link, then two cards. *)
Definition priced (amount : string) : Card :=
  sample_card (str "item_1/index.html") (pound :: str amount).

Definition page2_url : pystr :=
  str "https://example.com/catalogue/page-2.html".

Definition page1_soup : Soup :=
  {| soup_cards := [priced "10.00"; priced "25.50"; priced "60.00"];
     soup_next_a := Some {| a_title := None; a_href := Some (str "page-2.html") |} |}.

Definition page2_soup : Soup :=
  {| soup_cards := [priced "5.00"; priced "15.00"];
     soup_next_a := None |}.

Definition damaged_soup : Soup :=
  {| soup_cards := [priced "10.00"; card_without_price; priced "60.00"];
     soup_next_a := None |}.

(** Both pages are served. *)
Definition sample_web (n : nat) (u : pystr) : http_failure + Soup :=
  if pystr_eqb u sample_page_url then inr page1_soup
  else if pystr_eqb u page2_url then inr page2_soup
  else inl (BadStatus 404).

(** The second page answers with a server error. *)
Definition failing_web (n : nat) (u : pystr) : http_failure + Soup :=
  if pystr_eqb u sample_page_url then inr page1_soup
  else inl (BadStatus 500).

(** The first page has a card without price element. *)
Definition damaged_web (n : nat) (u : pystr) : http_failure + Soup :=
  if pystr_eqb u sample_page_url then inr damaged_soup
  else inl (BadStatus 404).

(** [time.sleep] refuses a negative delay and a NaN. *)
Definition sample_sleep (d : float) : option exn :=
  match d with
  | S754_nan => Some ValueError
  | _ => if SFltb d (S754_zero false) then Some ValueError else None
  end.

Definition sample_args (budget : Z) (limit : option float) : Args :=
  {| pages := budget; max_price := limit; out := str "books.csv";
     delay := lit 1; start_url := sample_page_url; sep := str ";" |}.

Definition sample_run (web : nat -> pystr -> http_failure + Soup)
    (budget : Z) (limit : option float) : result unit * World :=
  main_with_writer UrlJoin.urljoin web sample_sleep
    (sample_args budget limit) (initial []).


(** A page whose next link has no [href], and a web that serves it. *)
Definition linkless_soup : Soup :=
  {| soup_cards := [priced "10.00"];
     soup_next_a := Some {| a_title := None; a_href := None |} |}.

Definition linkless_web (n : nat) (u : pystr) : http_failure + Soup :=
  if pystr_eqb u sample_page_url then inr linkless_soup
  else inl (BadStatus 404).

(** One page, with a negative delay. *)
Definition hasty_args : Args :=
  {| pages := 1; max_price := None; out := str "books.csv";
     delay := lit (-1); start_url := sample_page_url; sep := str ";" |}.

(** [open] cannot write to the empty path, which resolves to a folder. *)
Definition sample_open (path : pystr) : option exn :=
  if truthy path then None else Some OSError.

(** [csv.writer] wants a delimiter of one character. *)
Definition sample_writer (delimiter : pystr) : option exn :=
  match delimiter with
  | [_] => None
  | _ => Some TypeError
  end.

(** The same arguments with another delimiter. *)
Definition with_sep (args : Args) (delimiter : pystr) : Args :=
  {| pages := pages args; max_price := max_price args; out := out args;
     delay := delay args; start_url := start_url args; sep := delimiter |}.

(** * Properties *)

(** ** String operations on one-character patterns *)

Section StringFacts.

Lemma starts_with_single (c x : char) (t : pystr) :
  starts_with [c] (x :: t) = (c =? x).
Proof. simpl. apply andb_true_r. Qed.

Lemma replace_char_map (c d : char) (s : pystr) :
  str_replace [c] [d] s = List.map (fun x => if x =? c then d else x) s.
Proof.
  unfold str_replace.
  induction s as [|x t IH]; [reflexivity|].
  cbn [replace_aux List.map]. rewrite starts_with_single, N.eqb_sym.
  destruct (x =? c); simpl; now rewrite IH.
Qed.

Lemma replace_char_remove (c : char) (s : pystr) :
  str_replace [c] [] s = List.filter (fun x => negb (x =? c)) s.
Proof.
  unfold str_replace.
  induction s as [|x t IH]; [reflexivity|].
  cbn [replace_aux List.filter]. rewrite starts_with_single, N.eqb_sym.
  destruct (x =? c); simpl; now rewrite IH.
Qed.

Lemma replace_char_same (c : char) (s : pystr) : str_replace [c] [c] s = s.
Proof.
  rewrite replace_char_map.
  induction s as [|x t IH]; [reflexivity|].
  simpl. rewrite IH. destruct (N.eqb_spec x c); congruence.
Qed.

Lemma count_char_nonneg (c : char) (s : pystr) : (0 <= count_aux [c] O s)%Z.
Proof.
  induction s as [|x t IH]; [simpl; lia|].
  cbn [count_aux]. rewrite starts_with_single.
  change (Nat.pred (List.length [c])) with O.
  destruct (c =? x); lia.
Qed.

Lemma count_char_zero (c : char) (s : pystr) :
  (str_count [c] s =? 0)%Z = negb (List.existsb (N.eqb c) s).
Proof.
  unfold str_count.
  induction s as [|x t IH]; [reflexivity|].
  cbn [count_aux List.existsb]. rewrite starts_with_single.
  pose proof (count_char_nonneg c t) as Hn.
  change (Nat.pred (List.length [c])) with O.
  destruct (c =? x); cbn [orb negb].
  - apply Z.eqb_neq. lia.
  - exact IH.
Qed.

Lemma existsb_char_In (c : char) (s : pystr) :
  List.existsb (N.eqb c) s = true <-> In c s.
Proof.
  rewrite existsb_exists. split.
  - intros [x [Hin Heq]]. apply N.eqb_eq in Heq. now subst.
  - intros Hin. exists c. split; [assumption | apply N.eqb_refl].
Qed.

Lemma rfind_char_snoc (c x : char) (s : pystr) (i acc : Z) :
  rfind_from [c] (s ++ [x]) i acc =
  if c =? x then (i + Z.of_nat (List.length s))%Z else rfind_from [c] s i acc.
Proof.
  revert i acc.
  induction s as [|y t IH]; intros i acc.
  - simpl. rewrite andb_true_r. destruct (c =? x); [lia | reflexivity].
  - cbn [app rfind_from List.length]. rewrite IH, !starts_with_single.
    destruct (c =? x); [lia | reflexivity].
Qed.

Lemma rfind_char_bound (c : char) (s : pystr) :
  (-1 <= str_rfind [c] s < Z.of_nat (List.length s))%Z.
Proof.
  unfold str_rfind.
  induction s as [|x t IH] using rev_ind; [simpl; lia|].
  rewrite rfind_char_snoc, length_app. simpl List.length.
  destruct (c =? x); lia.
Qed.

End StringFacts.

(** ** Price normaliser *)

Section PriceFacts.

Lemma last_separator_snoc (s : pystr) (x : char) :
  last_separator (s ++ [x]) = if is_separator x then Some x else last_separator s.
Proof. unfold last_separator. now rewrite rev_app_distr. Qed.

Lemma rfind_gt_last_separator (s : pystr) :
  (str_rfind [comma] s >? str_rfind [period] s)%Z =
  match last_separator s with
  | Some c => c =? comma
  | None => false
  end.
Proof.
  induction s as [|x t IH] using rev_ind; [reflexivity|].
  rewrite last_separator_snoc. unfold str_rfind in *.
  rewrite !rfind_char_snoc. unfold is_separator.
  pose proof (rfind_char_bound comma t) as Hc.
  pose proof (rfind_char_bound period t) as Hp.
  unfold str_rfind in Hc, Hp.
  rewrite (N.eqb_sym comma x), (N.eqb_sym period x).
  destruct (N.eqb_spec x comma) as [->|Hxc].
  - change (comma =? period) with false. cbn [orb].
    rewrite N.eqb_refl. apply Z.gtb_gt. lia.
  - destruct (N.eqb_spec x period) as [->|Hxp]; cbn [orb].
    + change (period =? comma) with false.
      rewrite Z.gtb_ltb. apply Z.ltb_ge. lia.
    + exact IH.
Qed.

Lemma normalize_both (s : pystr) :
  In comma s -> In period s ->
  normalize_separators s =
  match last_separator s with
  | Some c =>
      if c =? comma then List.map comma_to_period (without period s)
      else without comma s
  | None => without comma s
  end.
Proof.
  intros Hc Hp. unfold normalize_separators.
  rewrite !count_char_zero.
  apply existsb_char_In in Hc. apply existsb_char_In in Hp.
  rewrite Hc, Hp. cbn [negb andb].
  rewrite rfind_gt_last_separator, replace_char_map, !replace_char_remove.
  destruct (last_separator s) as [c|]; [|reflexivity].
  destruct (c =? comma); reflexivity.
Qed.

Lemma normalize_one_kind (s : pystr) :
  ~ In comma s \/ ~ In period s ->
  normalize_separators s = List.map comma_to_period s.
Proof.
  intros H. unfold normalize_separators.
  rewrite !count_char_zero, (replace_char_map comma period s).
  destruct (List.existsb (N.eqb comma) s) eqn:Ec;
    destruct (List.existsb (N.eqb period) s) eqn:Ep;
    cbn [negb andb]; try reflexivity.
  apply existsb_char_In in Ec. apply existsb_char_In in Ep. tauto.
Qed.

Lemma clean_chars (raw : pystr) (c : char) :
  In c (clean raw) -> price_char c = true.
Proof. unfold clean. intros H. now apply filter_In in H. Qed.

(** [float] only ever sees digits and points. *)
Lemma normalized_alphabet (raw : pystr) (c : char) :
  In c (normalize_separators (clean raw)) -> is_digit c || (c =? period) = true.
Proof.
  assert (Hmap : forall s, (forall x, In x s -> price_char x = true) ->
            forall x, In x (List.map comma_to_period s) ->
                      is_digit x || (x =? period) = true).
  { intros s Hs x Hx. apply in_map_iff in Hx. destruct Hx as [y [<- Hy]].
    specialize (Hs y Hy). unfold price_char, comma_to_period in *.
    destruct (y =? comma); [reflexivity|].
    now rewrite orb_false_r in Hs. }
  assert (Hwo : forall s, (forall x, In x s -> price_char x = true) ->
            forall x, In x (without comma s) ->
                      is_digit x || (x =? period) = true).
  { intros s Hs x Hx. apply filter_In in Hx. destruct Hx as [Hx Hne].
    specialize (Hs x Hx). unfold price_char in Hs.
    apply negb_true_iff in Hne. now rewrite Hne, orb_false_r in Hs. }
  pose proof (clean_chars raw) as Hcl. set (s := clean raw) in *.
  destruct (in_dec N.eq_dec comma s) as [Hc|Hc];
    [destruct (in_dec N.eq_dec period s) as [Hp|Hp]|].
  - rewrite (normalize_both s Hc Hp).
    destruct (last_separator s) as [x|]; [|now apply Hwo].
    destruct (x =? comma); [|now apply Hwo].
    apply Hmap. intros y Hy. apply Hcl. unfold without in Hy.
    now apply filter_In in Hy.
  - rewrite normalize_one_kind by tauto. now apply Hmap.
  - rewrite normalize_one_kind by tauto. now apply Hmap.
Qed.

Lemma span_digits_spec (s d r : pystr) :
  span_digits s = (d, r) ->
  s = d ++ r /\ List.forallb is_digit d = true
  /\ match r with [] => True | c :: _ => is_digit c = false end.
Proof.
  revert d r. induction s as [|x t IH]; intros d r H.
  - inversion H. repeat split.
  - simpl in H. destruct (is_digit x) eqn:Ex.
    + destruct (span_digits t) as [d' r'] eqn:Et. inversion H; subst.
      destruct (IH d' r eq_refl) as [-> [Hd Hr]].
      simpl. rewrite Ex, Hd. repeat split. exact Hr.
    + inversion H; subst. repeat split. exact Ex.
Qed.

Lemma digit_not_period (c : char) : is_digit c = true -> (period =? c) = false.
Proof.
  unfold is_digit, period. intros H. apply andb_true_iff in H.
  destruct H as [H1 _]. apply N.leb_le in H1. apply N.eqb_neq. lia.
Qed.

Lemma digits_no_period (d : pystr) :
  List.forallb is_digit d = true -> List.filter (N.eqb period) d = [].
Proof.
  induction d as [|x t IH]; [reflexivity|].
  cbn [List.forallb List.filter]. intros H.
  apply andb_true_iff in H. destruct H as [Hx Ht].
  now rewrite (digit_not_period x Hx), IH.
Qed.

Lemma digits_alphabet (d : pystr) :
  List.forallb is_digit d = true ->
  List.forallb (fun c => is_digit c || (c =? period)) d = true.
Proof.
  intros H. rewrite forallb_forall in *. intros x Hx. now rewrite (H x Hx).
Qed.

Lemma digits_exists (d : pystr) :
  List.forallb is_digit d = true -> List.existsb is_digit d = truthy d.
Proof. destruct d as [|x t]; [reflexivity|]. simpl. intros H.
  apply andb_true_iff in H. destruct H as [-> _]. reflexivity. Qed.

(** [float] fails exactly on the strings that are not decimal numerals. *)

Lemma py_float_none_iff (s : pystr) :
  py_float s = None <-> decimal_numeral s = false.
Proof.
  unfold py_float, decimal_numeral.
  destruct (span_digits s) as [ip r1] eqn:E1.
  destruct (span_digits_spec _ _ _ E1) as [-> [Hip Hr1]].
  rewrite forallb_app, filter_app, length_app, existsb_app.
  rewrite (digits_alphabet ip Hip), (digits_no_period ip Hip), (digits_exists ip Hip).
  destruct r1 as [|c r2].
  - destruct ip; simpl; split; congruence.
  - cbn [List.forallb List.filter List.existsb]. rewrite Hr1. cbn [orb andb List.length Nat.add].
    rewrite (N.eqb_sym period c).
    destruct (c =? period) eqn:Ec; [|cbn [andb]; tauto].
    destruct (span_digits r2) as [fp r3] eqn:E2.
    destruct (span_digits_spec _ _ _ E2) as [-> [Hfp Hr3]].
    rewrite forallb_app, filter_app, existsb_app. cbn [List.length]. rewrite length_app.
    rewrite (digits_alphabet fp Hfp), (digits_no_period fp Hfp), (digits_exists fp Hfp).
    cbn [List.length Nat.add andb]. destruct r3 as [|c' r4].
    + cbn. rewrite orb_false_r. destruct ip, fp; simpl; split; congruence.
    + cbn [List.forallb List.filter]. rewrite Hr3, (N.eqb_sym period c'). cbn [orb].
      split; [intros _|reflexivity].
      destruct (c' =? period); cbn [andb List.length]; [|reflexivity].
      rewrite andb_false_r. reflexivity.
Qed.

Lemma digit_is_price_char (c : char) : is_digit c = true -> price_char c = true.
Proof. unfold price_char. now intros ->. Qed.

Lemma digit_not_separator (c : char) : is_digit c = true -> is_separator c = false.
Proof.
  unfold is_digit, is_separator, comma, period. intros H.
  apply andb_true_iff in H. destruct H as [H _]. apply N.leb_le in H.
  apply orb_false_iff. split; apply N.eqb_neq; lia.
Qed.

Lemma filter_digits (p : char -> bool) (d : pystr) :
  (forall c, is_digit c = true -> p c = true) ->
  List.forallb is_digit d = true -> List.filter p d = d.
Proof.
  intros Hp. induction d as [|x t IH]; [reflexivity|].
  cbn [List.forallb List.filter]. intros H.
  apply andb_true_iff in H. destruct H as [Hx Ht].
  now rewrite (Hp x Hx), (IH Ht).
Qed.

Lemma map_digits (g : char -> char) (d : pystr) :
  (forall c, is_digit c = true -> g c = c) ->
  List.forallb is_digit d = true -> List.map g d = d.
Proof.
  intros Hg. induction d as [|x t IH]; [reflexivity|].
  cbn [List.forallb List.map]. intros H.
  apply andb_true_iff in H. destruct H as [Hx Ht].
  now rewrite (Hg x Hx), (IH Ht).
Qed.

Lemma without_digit (sep c : char) :
  is_separator sep = true -> is_digit c = true -> negb (c =? sep) = true.
Proof.
  intros Hs Hc. apply negb_true_iff, N.eqb_neq. intros ->.
  rewrite (digit_not_separator _ Hc) in Hs. discriminate.
Qed.

Lemma comma_to_period_digit (c : char) :
  is_digit c = true -> comma_to_period c = c.
Proof.
  intros Hc. unfold comma_to_period.
  pose proof (without_digit comma c eq_refl Hc) as H.
  apply negb_true_iff in H. now rewrite H.
Qed.

Lemma span_digits_stop (d r : pystr) (c : char) :
  List.forallb is_digit d = true -> is_digit c = false ->
  span_digits (d ++ c :: r) = (d, c :: r).
Proof.
  intros Hd Hc. induction d as [|x t IH].
  - cbn [app span_digits]. now rewrite Hc.
  - cbn [List.forallb] in Hd. apply andb_true_iff in Hd. destruct Hd as [Hx Ht].
    cbn [app span_digits]. now rewrite Hx, (IH Ht).
Qed.

Lemma span_digits_all (d : pystr) :
  List.forallb is_digit d = true -> span_digits d = (d, []).
Proof.
  induction d as [|x t IH]; [reflexivity|].
  cbn [List.forallb span_digits]. intros H.
  apply andb_true_iff in H. destruct H as [Hx Ht]. now rewrite Hx, (IH Ht).
Qed.

(** [float] on digits, a point, digits. *)
Lemma py_float_decimal (d f : pystr) :
  List.forallb is_digit d = true -> List.forallb is_digit f = true ->
  d ++ f <> [] ->
  py_float (d ++ period :: f)
  = Some (of_decimal (digits_value (d ++ f)) (List.length f)).
Proof.
  intros Hd Hf Hne. unfold py_float.
  rewrite (span_digits_stop d f period Hd eq_refl), N.eqb_refl.
  rewrite (span_digits_all f Hf).
  destruct (d ++ f); [congruence | reflexivity].
Qed.

Lemma last_separator_before_digits (x c : pystr) (sep : char) :
  is_separator sep = true -> List.forallb is_digit c = true ->
  last_separator (x ++ sep :: c) = Some sep.
Proof.
  intros Hs Hc. revert x. induction c as [|y t IH] using rev_ind; intros x.
  - now rewrite last_separator_snoc, Hs.
  - rewrite forallb_app in Hc. apply andb_true_iff in Hc.
    destruct Hc as [Ht Hy]. cbn [List.forallb] in Hy. rewrite andb_true_r in Hy.
    rewrite app_comm_cons, app_assoc, last_separator_snoc.
    rewrite (digit_not_separator y Hy). now apply IH.
Qed.

(** A thousands separator of one kind and then a decimal separator of the
    other kind, around digits: the value is that of the digits, as many of
    them after the point as follow the last separator. *)
Lemma parse_price_grouped (a b c : pystr) (thousands decimal : char) :
  (thousands = period /\ decimal = comma)
  \/ (thousands = comma /\ decimal = period) ->
  List.forallb is_digit a = true -> List.forallb is_digit b = true ->
  List.forallb is_digit c = true -> a ++ b ++ c <> [] ->
  parse_price (Some (a ++ thousands :: b ++ decimal :: c))
  = Some (of_decimal (digits_value (a ++ b ++ c)) (List.length c)).
Proof.
  intros Hsep Ha Hb Hc Hne.
  set (s := a ++ thousands :: b ++ decimal :: c).
  assert (Ht : is_separator thousands = true) by (destruct Hsep as [[-> _]|[-> _]]; reflexivity).
  assert (Hd : is_separator decimal = true) by (destruct Hsep as [[_ ->]|[_ ->]]; reflexivity).
  assert (Hpc : forall x, is_separator x = true -> price_char x = true).
  { intros x Hx. unfold price_char, is_separator in *.
    apply orb_true_iff in Hx. destruct Hx as [->| ->];
      [apply orb_true_r | rewrite orb_true_r; reflexivity]. }
  assert (Hclean : clean s = s).
  { unfold clean, s. rewrite !filter_app. cbn [List.filter].
    rewrite filter_app. cbn [List.filter].
    rewrite (Hpc _ Ht), (Hpc _ Hd).
    now rewrite !(filter_digits price_char _ digit_is_price_char) by assumption. }
  assert (Hs : parse_price (Some s) = py_float (normalize_separators (clean s))).
  { unfold s. destruct a; reflexivity. }
  rewrite Hs, Hclean.
  assert (Hin_t : In thousands s) by (unfold s; apply in_or_app; right; now left).
  assert (Hin_d : In decimal s).
  { unfold s. apply in_or_app. right. right. apply in_or_app. right. now left. }
  assert (Hlast : last_separator s = Some decimal).
  { unfold s. rewrite app_comm_cons, app_assoc.
    now apply last_separator_before_digits. }
  assert (Hassoc : a ++ b ++ c = (a ++ b) ++ c) by apply app_assoc.
  assert (Hab : List.forallb is_digit (a ++ b) = true)
    by (rewrite forallb_app, Ha, Hb; reflexivity).
  destruct Hsep as [[Et Ed]|[Et Ed]]; subst thousands decimal.
  - rewrite (normalize_both s Hin_d Hin_t), Hlast, N.eqb_refl.
    unfold without, s. rewrite !filter_app. cbn [List.filter].
    rewrite filter_app. cbn [List.filter].
    rewrite N.eqb_refl. change (comma =? period) with false. cbn [negb].
    rewrite !(filter_digits (fun x => negb (x =? period)) _
               (fun x => without_digit period x eq_refl)) by assumption.
    rewrite !map_app. cbn [List.map].
    rewrite !(map_digits _ _ comma_to_period_digit) by assumption.
    change (comma_to_period comma) with period.
    rewrite app_assoc, Hassoc. apply py_float_decimal; try assumption.
    now rewrite <- Hassoc.
  - rewrite (normalize_both s Hin_t Hin_d), Hlast.
    change (period =? comma) with false. cbv iota.
    unfold without, s. rewrite !filter_app. cbn [List.filter].
    rewrite filter_app. cbn [List.filter].
    rewrite N.eqb_refl. change (period =? comma) with false. cbn [negb].
    rewrite !(filter_digits (fun x => negb (x =? comma)) _
               (fun x => without_digit comma x eq_refl)) by assumption.
    rewrite app_assoc, Hassoc. apply py_float_decimal; try assumption.
    now rewrite <- Hassoc.
Qed.

(** C1.  When the cleaned string holds both a comma and a period,
    [parse_price] takes the separator that occurs last as the decimal point:
    with the comma last, the periods are dropped and each comma becomes a
    period before [float] is applied; with the period last, the commas are
    dropped.  Digits grouped by one kind of separator and then split by the
    other have the value of the digits with the point at the last separator.
    ["1.234,56"] and ["1,234.56"] both give 1234.56, and ["£51.77"] gives
    51.77. *)
Theorem parse_price_rightmost_separator (raw : pystr) :
  In comma (clean raw) -> In period (clean raw) ->
  (last_separator (clean raw) = Some comma ->
   parse_price (Some raw)
   = py_float (List.map comma_to_period (without period (clean raw))))
  /\ (last_separator (clean raw) = Some period ->
      parse_price (Some raw) = py_float (without comma (clean raw)))
  /\ (last_separator (clean raw) = Some comma
      \/ last_separator (clean raw) = Some period)
  /\ (forall a b c,
        List.forallb is_digit a = true -> List.forallb is_digit b = true ->
        List.forallb is_digit c = true -> a ++ b ++ c <> [] ->
        parse_price (Some (a ++ period :: b ++ comma :: c))
        = Some (of_decimal (digits_value (a ++ b ++ c)) (List.length c))
        /\ parse_price (Some (a ++ comma :: b ++ period :: c))
           = Some (of_decimal (digits_value (a ++ b ++ c)) (List.length c)))
  /\ parse_price (Some (str "1.234,56")) = Some (lit 1234.56)
  /\ parse_price (Some (str "1,234.56")) = Some (lit 1234.56)
  /\ parse_price (Some (pound :: str "51.77")) = Some (lit 51.77).
Proof.
  intros Hc Hp.
  assert (Hraw : parse_price (Some raw)
                 = py_float (normalize_separators (clean raw))).
  { destruct raw; [contradiction Hc | reflexivity]. }
  rewrite Hraw, (normalize_both _ Hc Hp).
  split; [|split; [|split; [|split; [|repeat split; vm_compute; reflexivity]]]].
  - intros ->. reflexivity.
  - intros ->. reflexivity.
  - clear Hraw Hp. unfold last_separator.
    apply in_rev in Hc.
    destruct (List.find is_separator (List.rev (clean raw))) as [c|] eqn:Ef.
    + apply find_some in Ef. destruct Ef as [_ Hs]. unfold is_separator in Hs.
      apply orb_true_iff in Hs.
      destruct Hs as [Hs|Hs]; apply N.eqb_eq in Hs; subst; auto.
    + apply (find_none _ _ Ef) in Hc. discriminate Hc.
  - intros a b c Ha Hb Hc' Hne.
    split; apply parse_price_grouped; auto.
Qed.

Lemma parse_price_rightmost_separator_witness :
  In comma (clean (str "1.234,56")) /\ In period (clean (str "1.234,56"))
  /\ parse_price (Some (str "1.234,56"))
     = py_float (List.map comma_to_period
                   (without period (clean (str "1.234,56")))).
Proof.
  assert (Hc : In comma (clean (str "1.234,56"))).
  { vm_compute. right. right. right. right. right. left. reflexivity. }
  assert (Hp : In period (clean (str "1.234,56"))).
  { vm_compute. right. left. reflexivity. }
  split; [exact Hc | split; [exact Hp |]].
  assert (Hl : last_separator (clean (str "1.234,56")) = Some comma)
    by (vm_compute; reflexivity).
  exact (proj1 (parse_price_rightmost_separator (str "1.234,56") Hc Hp) Hl).
Defined.

(** C6.  [parse_price] never raises: it returns [None] for a missing and for
    an empty input, and otherwise exactly when the cleaned and
    separator-normalised string is not a decimal numeral, which covers an
    empty residue, more than one point left, and a residue without any digit;
    the empty string, [None] and ["N/A"] give [None]. *)
Theorem parse_price_absent (raw : pystr) :
  parse_price None = None
  /\ parse_price (Some []) = None
  /\ (parse_price (Some raw) = None <->
      raw = [] \/ decimal_numeral (normalize_separators (clean raw)) = false)
  /\ (clean raw = [] -> parse_price (Some raw) = None)
  /\ ((2 <= List.length (List.filter (N.eqb period)
                           (normalize_separators (clean raw))))%nat ->
      parse_price (Some raw) = None)
  /\ (List.existsb is_digit raw = false -> parse_price (Some raw) = None)
  /\ parse_price (Some (str "N/A")) = None.
Proof.
  assert (Hgen : decimal_numeral (normalize_separators (clean raw)) = false ->
                 parse_price (Some raw) = None).
  { intros H. destruct raw; [reflexivity|]. now apply py_float_none_iff. }
  split; [reflexivity|]. split; [reflexivity|].
  split.
  { split; [|intros [->|H]; [reflexivity | now apply Hgen]].
    destruct raw as [|c t]; [now left|]. intros H. right.
    now apply py_float_none_iff. }
  split; [|split; [|split; [|reflexivity]]].
  - intros H. apply Hgen. now rewrite H.
  - intros H. apply Hgen. unfold decimal_numeral.
    apply Nat.leb_gt in H. rewrite H. now rewrite andb_false_r.
  - intros H. apply Hgen. unfold decimal_numeral.
    assert (Hd : List.existsb is_digit (normalize_separators (clean raw)) = false).
    { apply not_true_is_false. intros Hex. apply existsb_exists in Hex.
      destruct Hex as [x [Hin Hx]].
      assert (Hraw : In x (clean raw)).
      { unfold normalize_separators in Hin.
        rewrite (replace_char_map comma period (clean raw)) in Hin.
        rewrite (replace_char_map comma period (str_replace [period] [] (clean raw))) in Hin.
        rewrite !replace_char_remove in Hin.
        assert (Hm : forall s, In x (List.map (fun y => if y =? comma then period else y) s) -> In x s).
        { intros s Hs. apply in_map_iff in Hs. destruct Hs as [y [Hy Hys]].
          destruct (y =? comma); [subst x; discriminate Hx | now subst]. }
        destruct (_ && _); [destruct (_ >? _)%Z|].
        - apply Hm in Hin. now apply filter_In in Hin.
        - now apply filter_In in Hin.
        - now apply Hm. }
      apply filter_In in Hraw. destruct Hraw as [Hraw _].
      assert (Hex : List.existsb is_digit raw = true).
      { apply existsb_exists. now exists x. }
      congruence. }
    rewrite Hd. apply andb_false_r.
Qed.

Lemma parse_price_absent_witness :
  decimal_numeral (normalize_separators (clean (str "1.2.3"))) = false
  /\ clean (str "N/A") = []
  /\ (2 <= List.length (List.filter (N.eqb period)
                          (normalize_separators (clean (str "1,2,3")))))%nat
  /\ List.existsb is_digit (str "n.a.") = false
  /\ parse_price (Some (str "1.2.3")) = None
  /\ parse_price (Some (str "N/A")) = None
  /\ parse_price (Some (str "1,2,3")) = None
  /\ parse_price (Some (str "n.a.")) = None.
Proof.
  assert (H1 : decimal_numeral (normalize_separators (clean (str "1.2.3"))) = false)
    by (vm_compute; reflexivity).
  assert (H2 : clean (str "N/A") = []) by (vm_compute; reflexivity).
  assert (H3 : (2 <= List.length (List.filter (N.eqb period)
                  (normalize_separators (clean (str "1,2,3")))))%nat)
    by (vm_compute; lia).
  assert (H4 : List.existsb is_digit (str "n.a.") = false)
    by (vm_compute; reflexivity).
  refine (conj H1 (conj H2 (conj H3 (conj H4 (conj _ (conj _ (conj _ _))))))).
  - exact (proj2 (proj1 (proj2 (proj2 (parse_price_absent (str "1.2.3")))))
             (or_intror H1)).
  - exact (proj1 (proj2 (proj2 (proj2 (parse_price_absent (str "N/A"))))) H2).
  - exact (proj1 (proj2 (proj2 (proj2 (proj2 (parse_price_absent (str "1,2,3")))))) H3).
  - exact (proj1 (proj2 (proj2 (proj2 (proj2 (proj2 (parse_price_absent (str "n.a."))))))) H4).
Defined.

End PriceFacts.

(** ** Pound-sign repair *)

Section PoundFacts.

Lemma replace_absent (old new s : pystr) :
  old <> [] -> str_contains old s = false -> str_replace old new s = s.
Proof.
  intros Hold. destruct old as [|o old']; [congruence|]. unfold str_replace.
  induction s as [|c t IH]; [reflexivity|].
  cbn [str_contains replace_aux]. intros H.
  apply orb_false_iff in H. destruct H as [Hs Ht].
  rewrite Hs, (IH Ht). reflexivity.
Qed.

(** Both branches of line 194 give the one-pass replacement, and line 196
    changes nothing. *)
Lemma fix_pound_replace (price : pystr) :
  fix_pound price = str_replace mojibake [pound] price.
Proof.
  unfold fix_pound. rewrite replace_char_same.
  destruct (str_contains mojibake price) eqn:E; [reflexivity|].
  symmetry. apply replace_absent; [discriminate | exact E].
Qed.

Lemma starts_with_mojibake (s : pystr) :
  starts_with mojibake s = true -> exists t, s = a_circ :: pound :: t.
Proof.
  unfold mojibake.
  destruct s as [|c [|d t]]; cbn [starts_with]; try discriminate.
  - rewrite andb_false_r. discriminate.
  - intros H. apply andb_true_iff in H. destruct H as [Hc H].
    apply andb_true_iff in H. destruct H as [Hd _].
    apply N.eqb_eq in Hc, Hd. exists t. now rewrite <- Hc, <- Hd.
Qed.

Lemma replace_mojibake_hit (t : pystr) :
  str_replace mojibake [pound] (a_circ :: pound :: t)
  = pound :: str_replace mojibake [pound] t.
Proof. reflexivity. Qed.

Lemma replace_mojibake_miss (c : char) (t : pystr) :
  starts_with mojibake (c :: t) = false ->
  str_replace mojibake [pound] (c :: t) = c :: str_replace mojibake [pound] t.
Proof.
  intros H. unfold str_replace, mojibake in *. cbn [replace_aux].
  now rewrite H.
Qed.

(** After the repair a mis-decoded pound sign is left exactly when the text
    had one preceded by a further U+00C2. *)
Lemma replace_mojibake_contains (s : pystr) :
  str_contains mojibake (str_replace mojibake [pound] s)
  = str_contains (a_circ :: mojibake) s.
Proof.
  remember (List.length s) as n eqn:Hn.
  revert s Hn. induction n as [n IH] using lt_wf_ind. intros s Hn.
  destruct s as [|c t]; [reflexivity|].
  destruct (starts_with mojibake (c :: t)) eqn:Es.
  - destruct (starts_with_mojibake _ Es) as [t' Ht']. inversion Ht'; subst c t.
    rewrite replace_mojibake_hit.
    cbn [str_contains].
    rewrite <- (IH (List.length t') ltac:(subst n; simpl; lia) t' eq_refl).
    reflexivity.
  - rewrite (replace_mojibake_miss _ _ Es).
    cbn [str_contains].
    rewrite (IH (List.length t) ltac:(subst n; simpl; lia) t eq_refl).
    f_equal.
    change (starts_with mojibake (c :: str_replace mojibake [pound] t))
      with ((a_circ =? c) && starts_with [pound] (str_replace mojibake [pound] t)).
    change (starts_with (a_circ :: mojibake) (c :: t))
      with ((a_circ =? c) && starts_with mojibake t).
    change (starts_with mojibake (c :: t))
      with ((a_circ =? c) && starts_with [pound] t) in Es.
    destruct (a_circ =? c); [|reflexivity]. cbn [andb] in *.
    destruct t as [|d t']; [reflexivity|].
    destruct (starts_with mojibake (d :: t')) eqn:Et.
    + destruct (starts_with_mojibake _ Et) as [t'' Ht'']. inversion Ht''; subst.
      reflexivity.
    + rewrite (replace_mojibake_miss _ _ Et).
      rewrite starts_with_single in *. exact Es.
Qed.

End PoundFacts.

(** ** Page extractor *)

Section ExtractorFacts.

Variable urljoin : pystr -> pystr -> pystr.

Local Open Scope py_scope.

Lemma keeps_policy (max_price : option float) (r : Row) :
  keeps max_price r = true <-> filter_policy max_price r.
Proof.
  unfold keeps, passes_filter, filter_policy.
  destruct max_price as [m|]; [|tauto].
  destruct (price_value r) as [v|]; split.
  - intros H. right. now exists v, m.
  - intros [H|[v' [m' [Hv [Hm Hle]]]]]; congruence.
  - discriminate.
  - intros [H|[v' [m' [Hv [Hm Hle]]]]]; congruence.
Qed.

Lemma scrape_cards_filter (page_url : pystr) (max_price : option float)
    (cards : list Card) (rows : list Row) :
  scrape_cards urljoin page_url max_price cards rows
  = (all <-? extract_all urljoin page_url cards ;;
     Ok (rows ++ List.filter (keeps max_price) all)).
Proof.
  revert rows. induction cards as [|card rest IH]; intros rows.
  - simpl. now rewrite app_nil_r.
  - cbn [scrape_cards extract_all].
    destruct (extract_card urljoin page_url card) as [row|e]; [|reflexivity].
    cbn [rbind]. fold (keeps max_price row).
    destruct (keeps max_price row) eqn:Ek; rewrite IH;
      destruct (extract_all urljoin page_url rest) as [more|e]; cbn [rbind List.filter];
      try reflexivity; rewrite Ek; [now rewrite <- app_assoc | reflexivity].
Qed.

Lemma extract_card_raises (page_url : pystr) (card : Card) (e : exn) :
  extract_card urljoin page_url card = Raise e -> e = AttributeError.
Proof.
  unfold extract_card, attribute_of.
  destruct (card_h3 card) as [h3|]; cbn [rbind]; [|congruence].
  destruct (h3_a h3) as [a|]; cbn [rbind]; [|congruence].
  destruct (card_price_color card); cbn [rbind]; [|congruence].
  destruct (card_instock card); cbn [rbind]; congruence.
Qed.

Lemma extract_card_lacking (page_url : pystr) (card : Card) :
  lacks_element card <->
  extract_card urljoin page_url card = Raise AttributeError.
Proof.
  unfold lacks_element, extract_card, attribute_of.
  destruct (card_h3 card) as [h3|]; cbn [rbind]; [|tauto].
  destruct (h3_a h3) as [a|] eqn:Ea; cbn [rbind].
  - destruct (card_price_color card); cbn [rbind]; [|tauto].
    destruct (card_instock card); cbn [rbind]; [|tauto].
    split; [|discriminate].
    intros [H|[[h [Hh Hn]]|[H|H]]]; try discriminate.
    inversion Hh; subst. congruence.
  - split; [reflexivity|]. intros _. right. left. now exists h3.
Qed.

Lemma extract_all_lacking (page_url : pystr) (cards : list Card) (card : Card) :
  In card cards -> lacks_element card ->
  extract_all urljoin page_url cards = Raise AttributeError.
Proof.
  induction cards as [|c rest IH]; [contradiction|].
  intros [->|Hin] Hl; cbn [extract_all].
  - apply (extract_card_lacking page_url) in Hl. now rewrite Hl.
  - destruct (extract_card urljoin page_url c) as [row|e] eqn:Ec.
    + cbn [rbind]. now rewrite (IH Hin Hl).
    + apply extract_card_raises in Ec. now subst.
Qed.

(** C2.  The extractor returns the rows of the page's cards, in order,
    that pass the filter, and a row passes if and only if no maximum price is
    set, or its price value is present and at most the maximum.  So whenever
    the extractor returns, a card's row is among its rows exactly when the
    row meets that condition: without a maximum all rows are returned, also
    those whose price did not normalise; with a maximum those are left out;
    and every returned row satisfies the filter. *)
Theorem extractor_filter_policy (page_url : pystr) (max_price : option float)
    (soup : Soup) :
  extract_page urljoin page_url max_price soup
  = (all <-? extract_all urljoin page_url (soup_cards soup) ;;
     next_url <-? next_link urljoin page_url soup ;;
     Ok (List.filter (keeps max_price) all, next_url))
  /\ (forall r, keeps max_price r = true <-> filter_policy max_price r)
  /\ (forall rows next_url,
        extract_page urljoin page_url max_price soup = Ok (rows, next_url) ->
        exists all,
          extract_all urljoin page_url (soup_cards soup) = Ok all
          /\ rows = List.filter (keeps max_price) all
          /\ (forall r, In r all -> (In r rows <-> filter_policy max_price r))
          /\ (max_price = None -> rows = all)
          /\ (forall r, In r all -> price_value r = None ->
              (max_price <> None -> ~ In r rows)
              /\ (max_price = None -> In r rows))
          /\ (forall r, In r rows -> filter_policy max_price r)).
Proof.
  assert (Heq : extract_page urljoin page_url max_price soup
                = (all <-? extract_all urljoin page_url (soup_cards soup) ;;
                   next_url <-? next_link urljoin page_url soup ;;
                   Ok (List.filter (keeps max_price) all, next_url))).
  { unfold extract_page. rewrite scrape_cards_filter.
    now destruct (extract_all urljoin page_url (soup_cards soup)). }
  split; [exact Heq|]. split; [intros r; apply keeps_policy|].
  intros rows next_url. rewrite Heq.
  destruct (extract_all urljoin page_url (soup_cards soup)) as [all|e];
    cbn [rbind]; [|discriminate].
  destruct (next_link urljoin page_url soup) as [nu|e]; cbn [rbind]; [|discriminate].
  intros H. inversion H; subst. clear H. exists all.
  assert (Hin : forall r, In r all ->
            (In r (List.filter (keeps max_price) all) <-> filter_policy max_price r)).
  { intros r Hr. rewrite filter_In, keeps_policy. tauto. }
  split; [reflexivity|]. split; [reflexivity|]. split; [exact Hin|].
  split; [|split].
  - intros ->. clear Hin Heq. induction all as [|r t IH]; [reflexivity|].
    simpl. now rewrite IH.
  - intros r Hr Hnone. rewrite (Hin r Hr). unfold filter_policy. split.
    + intros Hmp [H|[v [m [Hv _]]]]; congruence.
    + intros ->. now left.
  - intros r Hr. apply filter_In in Hr. now apply keeps_policy.
Qed.

End ExtractorFacts.

(** ** Pagination driver *)

Section DriverFacts.

Variable urljoin : pystr -> pystr -> pystr.
Variable http_get : nat -> pystr -> http_failure + Soup.
Variable sleep_check : float -> option exn.
Variable args : Args.

(* [run] is the run from the point where the output file is open and the
   writer built; [main_after_setup] relates it to [main]. *)
Local Abbreviation loop := (page_loop urljoin http_get sleep_check args).
Local Abbreviation run := (main_with_writer urljoin http_get sleep_check).

Lemma count_gets_app (a b : list event) :
  count_gets (a ++ b) = (count_gets a + count_gets b)%nat.
Proof. unfold count_gets. now rewrite filter_app, length_app. Qed.

Lemma count_sleeps_app (a b : list event) :
  count_sleeps (a ++ b) = (count_sleeps a + count_sleeps b)%nat.
Proof. unfold count_sleeps. now rewrite filter_app, length_app. Qed.

Lemma count_gets_cons (e : event) (l : list event) :
  count_gets (e :: l) = ((if is_get e then 1 else 0) + count_gets l)%nat.
Proof. unfold count_gets. cbn [List.filter]. now destruct (is_get e). Qed.

Lemma count_sleeps_cons (e : event) (l : list event) :
  count_sleeps (e :: l) = ((if is_sleep e then 1 else 0) + count_sleeps l)%nat.
Proof. unfold count_sleeps. cbn [List.filter]. now destruct (is_sleep e). Qed.

(** One iteration of the loop, case by case. *)
Lemma page_loop_step (page_num : Z) (later : list Z) (vars : LoopVars) (w : World) :
  loop (page_num :: later) vars w =
  let cur := current vars in
  match http_get (count_gets (w_trace w)) cur with
  | inl f => (Raise (RequestError f), logged w [EvGet cur])
  | inr soup =>
      match extract_page urljoin cur (max_price args) soup with
      | Raise e => (Raise e, logged w [EvGet cur])
      | Ok (rows, next_url) =>
          let n := Z.of_nat (List.length rows) in
          let tot := (total vars + n)%Z in
          let said := [EvGet cur; EvPrint (MsgPage page_num n)] in
          match next_page next_url with
          | None =>
              (Ok (Broke, {| total := tot; current := cur |}),
               advanced w rows said)
          | Some u =>
              let w3 := advanced w rows (said ++ [EvSleep (delay args)]) in
              match sleep_check (delay args) with
              | Some e => (Raise e, w3)
              | None => loop later {| total := tot; current := u |} w3
              end
          end
      end
  end.
Proof.
  cbn [page_loop]. unfold bind at 1, scrape_one_page, bind at 1, fetch.
  cbv zeta. unfold logged, advanced.
  destruct (http_get (count_gets (w_trace w)) (current vars)) as [f|soup];
    [reflexivity|].
  unfold lift.
  destruct (extract_page urljoin (current vars) (max_price args) soup)
    as [[rows next_url]|e]; [|reflexivity].
  cbn [fst snd]. unfold bind, write_lines, print, emit, sleep, bind, emit, raise, ret.
  cbn [w_file w_trace].
  destruct (next_page next_url) as [u|].
  - destruct (sleep_check (delay args)); unfold raise, ret;
      cbn [w_file w_trace]; rewrite <- !app_assoc; reflexivity.
  - rewrite <- !app_assoc. reflexivity.
Qed.

Lemma page_loop_nil (vars : LoopVars) (w : World) :
  loop [] vars w = (Ok (Exhausted, vars), w).
Proof. reflexivity. Qed.

(** The loop over [a ++ b] is the loop over [a], followed by the loop over
    [b] when the first ran out of page numbers. *)
Lemma page_loop_app (a b : list Z) (vars : LoopVars) (w : World) :
  loop (a ++ b) vars w =
  match loop a vars w with
  | (Ok (Exhausted, vars'), w') => loop b vars' w'
  | other => other
  end.
Proof.
  revert vars w. induction a as [|p a IH]; intros vars w; [reflexivity|].
  rewrite <- app_comm_cons, !page_loop_step. cbv zeta.
  destruct (http_get _ _) as [f|soup]; [reflexivity|].
  destruct (extract_page _ _ _ _) as [[rows nu]|e]; [|reflexivity].
  destruct (next_page nu); [|reflexivity].
  destruct (sleep_check _); [reflexivity|]. apply IH.
Qed.

Lemma main_unfold (w : World) :
  run args w =
  match loop (py_range 1 (pages args + 1))
          {| total := 0; current := start_url args |}
          {| w_file := [HeaderLine header]; w_trace := w_trace w |} with
  | (Ok (_, vars), w') => (Ok tt, logged w' [EvPrint (MsgSaved (total vars))])
  | (Raise e, w') => (Raise e, w')
  end.
Proof.
  unfold main_with_writer, bind, open_w, write_lines, print, emit, logged.
  cbn [w_file w_trace app pages].
  destruct (loop _ _ _) as [[[ex vars]|e] w']; reflexivity.
Qed.

Lemma py_range_length (lo hi : Z) :
  List.length (py_range lo hi) = Z.to_nat (hi - lo).
Proof. unfold py_range. now rewrite length_map, length_seq. Qed.

Lemma py_range_empty (lo hi : Z) : (hi <= lo)%Z -> py_range lo hi = [].
Proof.
  intros H. unfold py_range.
  replace (Z.to_nat (hi - lo)) with O by lia. reflexivity.
Qed.

Lemma map_seq_from {A} (f : nat -> A) (n len : nat) :
  List.map f (List.seq n len)
  = List.map (fun i => f (n + i)%nat) (List.seq 0 len).
Proof.
  revert n f. induction len as [|len IH]; intros n f; [reflexivity|].
  cbn [List.seq List.map]. rewrite Nat.add_0_r. f_equal.
  rewrite (IH (S n)), (IH 1%nat). apply map_ext. intros i.
  f_equal. lia.
Qed.

Lemma py_range_split (lo k hi : Z) :
  (lo <= k < hi)%Z ->
  py_range lo hi = py_range lo k ++ k :: py_range (k + 1) hi.
Proof.
  intros H. unfold py_range.
  replace (Z.to_nat (hi - lo))
    with (Z.to_nat (k - lo) + S (Z.to_nat (hi - (k + 1))))%nat by lia.
  rewrite seq_app, map_app. f_equal.
  cbn [List.seq List.map]. f_equal; [lia|].
  rewrite map_seq_from. apply map_ext. intros i. lia.
Qed.

Lemma advanced_nil (w : World) : advanced w [] [] = w.
Proof. destruct w. unfold advanced. cbn. now rewrite !app_nil_r. Qed.

Lemma advanced_advanced (w : World) (r1 r2 : list Row) (e1 e2 : list event) :
  advanced (advanced w r1 e1) r2 e2 = advanced w (r1 ++ r2) (e1 ++ e2).
Proof. unfold advanced. cbn. now rewrite map_app, !app_assoc. Qed.

Lemma logged_advanced (w : World) (evs : list event) :
  logged w evs = advanced w [] evs.
Proof. unfold logged, advanced. cbn. now rewrite app_nil_r. Qed.

(** The loop only adds rows to the file and events to the trace; it makes at
    most one request per page number and at most one wait per request. *)
Lemma page_loop_events (nums : list Z) :
  forall vars w r w',
    loop nums vars w = (r, w') ->
    exists rows evs,
      w' = advanced w rows evs
      /\ (count_gets evs <= List.length nums)%nat
      /\ (count_sleeps evs <= count_gets evs)%nat
      /\ (nums <> [] -> (1 <= count_gets evs)%nat)
      /\ (nums = [] -> evs = [])
      /\ loop_done args nums r evs.
Proof.
  induction nums as [|p later IH]; intros vars w r w' H.
  - rewrite page_loop_nil in H. inversion H; subst.
    exists [], []. rewrite advanced_nil. cbn.
    repeat split; auto; congruence.
  - rewrite page_loop_step in H. cbv zeta in H.
    destruct (http_get _ _) as [f|soup].
    { inversion H; subst. exists [], [EvGet (current vars)].
      rewrite logged_advanced. cbn. repeat split; auto; (lia || discriminate). }
    destruct (extract_page _ _ _ _) as [[rows nu]|e].
    2:{ inversion H; subst. exists [], [EvGet (current vars)].
        rewrite logged_advanced. cbn. repeat split; auto; (lia || discriminate). }
    destruct (next_page nu) as [u|].
    2:{ inversion H; subst. eexists rows, _. split; [reflexivity|].
        cbn. repeat split; auto; try lia; try discriminate.
        now exists [], (current vars), (MsgPage p (Z.of_nat (List.length rows))). }
    destruct (sleep_check _) as [e|].
    { inversion H; subst. eexists rows, _. split; [reflexivity|].
      cbn. repeat split; auto; (lia || discriminate). }
    destruct (IH _ _ _ _ H) as [rows' [evs' [Hw [Hg [Hs [Hne [Hnil Hd]]]]]]].
    rewrite advanced_advanced in Hw. eexists (rows ++ rows'), _.
    split; [exact Hw|]. cbn [app].
    assert (Hlen : List.length (p :: later) = S (List.length later)) by reflexivity.
    unfold loop_done in *.
    rewrite !count_gets_cons, !count_sleeps_cons, Hlen.
    cbn [is_get is_sleep Nat.add].
    split; [lia|]. split; [lia|]. split; [intros _; lia|].
    split; [discriminate|].
    destruct r as [[[|] v]|e]; [| |exact I].
    + destruct Hd as [Hd [pre [u' [m Hpre]]]].
      split; [lia|]. eexists _, u', m. rewrite Hpre, !app_comm_cons. reflexivity.
    + destruct Hd as [Hdg [Hds Hlast]].
      split; [lia|]. split; [lia|]. intros _.
      destruct later as [|p2 l2].
      * rewrite (Hnil eq_refl).
        now exists [], (current vars),
                   (MsgPage p (Z.of_nat (List.length rows))).
      * destruct Hlast as [pre [u' [m Hpre]]]; [discriminate|].
        eexists _, u', m. rewrite Hpre, !app_comm_cons. reflexivity.
Qed.

Lemma run_initial (old : list csv_line) :
  run args (initial old) =
  match loop (py_range 1 (pages args + 1)) (vars0 args) opened with
  | (Ok (_, vars), w') => (Ok tt, logged w' [EvPrint (MsgSaved (total vars))])
  | (Raise e, w') => (Raise e, w')
  end.
Proof. now rewrite main_unfold. Qed.

(** The run when the loop reaches page [k] after [k - 1] pages that each
    had a next URL. *)
Lemma run_from_page (old : list csv_line) (k : Z) (vars1 : LoopVars) (w1 : World) :
  (1 <= k <= pages args)%Z ->
  loop (py_range 1 k) (vars0 args) opened = (Ok (Exhausted, vars1), w1) ->
  run args (initial old) =
  match loop (k :: py_range (k + 1) (pages args + 1)) vars1 w1 with
  | (Ok (_, vars), w') => (Ok tt, logged w' [EvPrint (MsgSaved (total vars))])
  | (Raise e, w') => (Raise e, w')
  end.
Proof.
  intros Hk H1. rewrite run_initial.
  rewrite (py_range_split 1 k (pages args + 1)) by lia.
  now rewrite page_loop_app, H1.
Qed.

Lemma gets_before_page (k : Z) (vars1 : LoopVars) (w1 : World) :
  loop (py_range 1 k) (vars0 args) opened = (Ok (Exhausted, vars1), w1) ->
  count_gets (w_trace w1) = Z.to_nat (k - 1)
  /\ exists rows, w_file w1 = HeaderLine header :: List.map RowLine rows.
Proof.
  intros H. apply page_loop_events in H.
  destruct H as [rows [evs [-> [_ [_ [_ [_ [Hg _]]]]]]]].
  rewrite py_range_length in Hg. cbn. split; [exact Hg | now exists rows].
Qed.

(** C3.  With a page budget of at least one the run requests at least one
    and at most [pages] pages.  When page [k] is extracted and has no next
    URL, the run ends there: it has made [k] requests, whatever budget is
    left, and it completes normally with the final message.  With a budget
    of one, exactly one page is requested. *)
Theorem driver_page_budget (old : list csv_line) :
  (1 <= pages args)%Z ->
  (1 <= count_gets (w_trace (snd (run args (initial old)))))%nat
  /\ (Z.of_nat (count_gets (w_trace (snd (run args (initial old)))))
      <= pages args)%Z
  /\ (pages args = 1%Z ->
      count_gets (w_trace (snd (run args (initial old)))) = 1%nat)
  /\ (forall k vars1 w1 soup rows next_url,
        (1 <= k <= pages args)%Z ->
        loop (py_range 1 k) (vars0 args) opened = (Ok (Exhausted, vars1), w1) ->
        http_get (count_gets (w_trace w1)) (current vars1) = inr soup ->
        extract_page urljoin (current vars1) (max_price args) soup
        = Ok (rows, next_url) ->
        next_page next_url = None ->
        let n := Z.of_nat (List.length rows) in
        run args (initial old)
        = (Ok tt,
           advanced w1 rows
             [EvGet (current vars1); EvPrint (MsgPage k n);
              EvPrint (MsgSaved (total vars1 + n))])
        /\ count_gets (w_trace (snd (run args (initial old)))) = Z.to_nat k).
Proof.
  intros Hp.
  assert (Hcount : (1 <= count_gets (w_trace (snd (run args (initial old)))))%nat
            /\ (count_gets (w_trace (snd (run args (initial old))))
                <= Z.to_nat (pages args))%nat).
  { rewrite run_initial.
    destruct (loop (py_range 1 (pages args + 1)) (vars0 args) opened) as [r w'] eqn:E.
    apply page_loop_events in E.
    destruct E as [rows [evs [-> [Hg [_ [Hne _]]]]]].
    rewrite py_range_length in Hg.
    assert (Hnn : py_range 1 (pages args + 1) <> []).
    { intros Hnil. apply (f_equal (@List.length Z)) in Hnil.
      rewrite py_range_length in Hnil. simpl in Hnil. lia. }
    specialize (Hne Hnn).
    destruct r as [[ex v]|e]; cbn [snd logged advanced w_trace opened app];
      rewrite ?count_gets_app; cbn [count_gets List.filter is_get List.length];
      lia. }
  destruct Hcount as [Hlo Hhi].
  split; [exact Hlo|]. split; [lia|]. split; [intros H1; lia|].
  intros k vars1 w1 soup rows next_url Hk H1 Hget Hex Hnx n.
  destruct (gets_before_page _ _ _ H1) as [Hg1 _].
  rewrite (run_from_page old k vars1 w1 Hk H1), page_loop_step.
  cbv zeta. rewrite Hget, Hex, Hnx.
  split.
  - unfold logged, advanced. cbn [w_file w_trace total].
    now rewrite <- app_assoc.
  - cbn [snd logged advanced w_trace]. rewrite !count_gets_app, Hg1.
    cbn [count_gets List.filter is_get List.length]. lia.
Qed.

Lemma trailing_waits_snoc_get (pre post : list event) (u : pystr) :
  existsb is_get post = false ->
  trailing_waits (pre ++ EvGet u :: post) = count_sleeps post.
Proof.
  intros Hpost. unfold trailing_waits.
  rewrite rev_app_distr. cbn [List.rev]. rewrite <- app_assoc. cbn [app].
  assert (Hrev : existsb is_get (List.rev post) = false).
  { apply not_true_is_false. intros H. apply existsb_exists in H.
    destruct H as [e [Hin He]]. apply in_rev in Hin.
    assert (Hex : existsb is_get post = true) by (apply existsb_exists; now exists e).
    congruence. }
  assert (Hcount : count_sleeps (List.rev post) = count_sleeps post).
  { unfold count_sleeps. clear. induction post as [|e t IH]; [reflexivity|].
    cbn [List.rev List.filter]. rewrite filter_app, length_app, IH.
    cbn [List.filter]. destruct (is_sleep e); cbn [List.length]; lia. }
  rewrite <- Hcount. clear Hcount Hpost.
  induction (List.rev post) as [|e t IH]; [reflexivity|].
  cbn [existsb] in Hrev. apply orb_false_iff in Hrev. destruct Hrev as [He Ht].
  cbn [app until_get]. rewrite He, !count_sleeps_cons. now rewrite (IH Ht).
Qed.

(** C4, as the code has it.  The driver waits after every page that gives a
    next URL, the last page of the budget included, and after no other page:
    no run waits more often than it requests; a run that uses up its budget
    has waited once per page, and its last wait comes after its last
    request; a run that stops at a page without next URL has waited once per
    page before that one and not after it. *)
Theorem driver_waits_after_each_continued_page (old : list csv_line) :
  (count_sleeps (w_trace (snd (run args (initial old))))
   <= count_gets (w_trace (snd (run args (initial old)))))%nat
  /\ (forall vars w',
        (1 <= pages args)%Z ->
        loop (py_range 1 (pages args + 1)) (vars0 args) opened
        = (Ok (Exhausted, vars), w') ->
        count_gets (w_trace (snd (run args (initial old))))
        = Z.to_nat (pages args)
        /\ count_sleeps (w_trace (snd (run args (initial old))))
           = Z.to_nat (pages args)
        /\ trailing_waits (w_trace (snd (run args (initial old)))) = 1%nat
        /\ exists pre u m,
             w_trace (snd (run args (initial old)))
             = pre ++ [EvGet u; EvPrint m; EvSleep (delay args);
                       EvPrint (MsgSaved (total vars))])
  /\ (forall vars w',
        loop (py_range 1 (pages args + 1)) (vars0 args) opened
        = (Ok (Broke, vars), w') ->
        (count_sleeps (w_trace (snd (run args (initial old)))) + 1)%nat
        = count_gets (w_trace (snd (run args (initial old))))
        /\ trailing_waits (w_trace (snd (run args (initial old)))) = 0%nat
        /\ exists pre u m,
             w_trace (snd (run args (initial old)))
             = pre ++ [EvGet u; EvPrint m; EvPrint (MsgSaved (total vars))]).
Proof.
  rewrite run_initial.
  destruct (loop (py_range 1 (pages args + 1)) (vars0 args) opened) as [r w1] eqn:E.
  apply page_loop_events in E.
  destruct E as [rows [evs [-> [_ [Hs [_ [_ Hd]]]]]]].
  unfold loop_done in Hd. rewrite ?py_range_length in Hd.
  replace (Z.to_nat (pages args + 1 - 1)) with (Z.to_nat (pages args)) in Hd by lia.
  split; [|split].
  - destruct r as [[ex v]|e]; cbn [snd logged advanced w_trace opened app];
      rewrite ?count_gets_app, ?count_sleeps_app;
      cbn [count_gets count_sleeps List.filter is_get is_sleep List.length]; lia.
  - intros vars w' Hp H. inversion H; subst. clear H.
    destruct Hd as [Hg [Hsl Hlast]].
    cbn [snd logged advanced w_trace opened app].
    rewrite count_gets_app, count_sleeps_app.
    cbn [count_gets count_sleeps List.filter is_get is_sleep List.length].
    split; [lia|]. split; [lia|].
    destruct Hlast as [pre [u [m ->]]].
    { intros Hnil. apply (f_equal (@List.length Z)) in Hnil.
      rewrite py_range_length in Hnil. simpl in Hnil. lia. }
    rewrite <- app_assoc. cbn [app].
    split; [now rewrite trailing_waits_snoc_get | now exists pre, u, m].
  - intros vars w' H. inversion H; subst. clear H.
    destruct Hd as [Hc [pre [u [m ->]]]].
    cbn [snd logged advanced w_trace opened app].
    rewrite !count_gets_app, !count_sleeps_app in *.
    cbn [count_gets count_sleeps List.filter is_get is_sleep List.length] in *.
    split; [lia|]. rewrite <- app_assoc. cbn [app].
    split; [now rewrite trailing_waits_snoc_get | now exists pre, u, m].
Qed.

(** C5, as the code has it.  A card without its price element or without
    its stock element makes the extraction of its page raise
    [AttributeError], and the run ends with that exception right after the
    request for the page: no row of the page is written. *)
Theorem missing_element_aborts (page_num : Z) (later : list Z)
    (vars : LoopVars) (w : World) (soup : Soup) (card : Card) :
  http_get (count_gets (w_trace w)) (current vars) = inr soup ->
  In card (soup_cards soup) ->
  card_price_color card = None \/ card_instock card = None ->
  extract_page urljoin (current vars) (max_price args) soup
  = Raise AttributeError
  /\ loop (page_num :: later) vars w
     = (Raise AttributeError, logged w [EvGet (current vars)]).
Proof.
  intros Hget Hin Hmiss.
  assert (Hex : extract_page urljoin (current vars) (max_price args) soup
                = Raise AttributeError).
  { unfold extract_page. rewrite scrape_cards_filter.
    rewrite (extract_all_lacking urljoin _ _ card Hin); [reflexivity|].
    unfold lacks_element. tauto. }
  split; [exact Hex|].
  rewrite page_loop_step. cbv zeta. now rewrite Hget, Hex.
Qed.

(** C7.  When the request for page [k] fails, after [k - 1] pages that were
    written and each had a next URL, the run ends at once with the request
    error: the failed request is its [k]-th and last event, no final message
    is printed, and the file holds the header and the rows of the pages
    before. *)
Theorem fetch_failure_keeps_written_rows (old : list csv_line) (k : Z)
    (vars1 : LoopVars) (w1 : World) (f : http_failure) :
  (1 <= k <= pages args)%Z ->
  loop (py_range 1 k) (vars0 args) opened = (Ok (Exhausted, vars1), w1) ->
  http_get (count_gets (w_trace w1)) (current vars1) = inl f ->
  run args (initial old)
  = (Raise (RequestError f), logged w1 [EvGet (current vars1)])
  /\ w_file (snd (run args (initial old))) = w_file w1
  /\ (exists rows, w_file w1 = HeaderLine header :: List.map RowLine rows)
  /\ count_gets (w_trace (snd (run args (initial old)))) = Z.to_nat k.
Proof.
  intros Hk H1 Hget.
  destruct (gets_before_page _ _ _ H1) as [Hg1 Hfile].
  rewrite (run_from_page old k vars1 w1 Hk H1), page_loop_step.
  cbv zeta. rewrite Hget.
  split; [reflexivity|]. split; [reflexivity|]. split; [exact Hfile|].
  cbn [snd logged w_trace]. rewrite count_gets_app, Hg1.
  cbn [count_gets List.filter is_get List.length]. lia.
Qed.

(** With the writer built and a page budget of zero or less, the run makes
    no request and writes no row: the file holds the header, and the total
    reported is 0. *)
Lemma empty_budget_with_writer (old : list csv_line) :
  (pages args <= 0)%Z ->
  run args (initial old)
  = (Ok tt, {| w_file := [HeaderLine header];
               w_trace := [EvPrint (MsgSaved 0)] |})
  /\ count_gets (w_trace (snd (run args (initial old)))) = 0%nat.
Proof.
  intros Hp. rewrite run_initial, py_range_empty by lia.
  split; reflexivity.
Qed.

End DriverFacts.

(** ** Item fields *)

Lemma extract_card_fields (urljoin : pystr -> pystr -> pystr)
    (page_url : pystr) (card : Card) (row : Row) :
  extract_card urljoin page_url card = Ok row ->
  exists h3 a text stock_text,
    card_h3 card = Some h3 /\ h3_a h3 = Some a
    /\ card_price_color card = Some text
    /\ card_instock card = Some stock_text
    /\ row = {| title := str_strip (attr_get (a_title a) []);
                price_raw := fix_pound text;
                price_value := parse_price (Some (fix_pound text));
                stock := stock_text;
                url := urljoin page_url (attr_get (a_href a) []) |}.
Proof.
  unfold extract_card, attribute_of.
  destruct (card_h3 card) as [h3|]; cbn [rbind]; [|discriminate].
  destruct (h3_a h3) as [a|] eqn:Ea; cbn [rbind]; [|discriminate].
  destruct (card_price_color card) as [text|]; cbn [rbind]; [|discriminate].
  destruct (card_instock card) as [st|]; cbn [rbind]; [|discriminate].
  intros H. inversion H. now exists h3, a, text, st.
Qed.

(** ** Closed instances *)

Lemma extractor_filter_policy_witness :
  extract_page UrlJoin.urljoin sample_page_url (Some (lit 20)) page1_soup
  = Ok (rows_of (extract_page UrlJoin.urljoin sample_page_url
                   (Some (lit 20)) page1_soup),
        Some page2_url)
  /\ List.map price_value
       (rows_of (extract_page UrlJoin.urljoin sample_page_url
                   (Some (lit 20)) page1_soup))
     = [Some (lit 10)]
  /\ forall r,
       In r (rows_of (extract_page UrlJoin.urljoin sample_page_url
                        (Some (lit 20)) page1_soup)) ->
       filter_policy (Some (lit 20)) r.
Proof.
  assert (H : extract_page UrlJoin.urljoin sample_page_url (Some (lit 20)) page1_soup
              = Ok (rows_of (extract_page UrlJoin.urljoin sample_page_url
                               (Some (lit 20)) page1_soup),
                    Some page2_url)) by (vm_compute; reflexivity).
  split; [exact H|]. split; [vm_compute; reflexivity|].
  destruct (proj2 (proj2 (extractor_filter_policy UrlJoin.urljoin
                            sample_page_url (Some (lit 20)) page1_soup)) _ _ H)
    as [all [_ [_ [_ [_ [_ Hall]]]]]].
  exact Hall.
Defined.

Lemma driver_page_budget_witness :
  (1 <= pages (sample_args 5 (Some (lit 20))))%Z
  /\ (Z.of_nat (count_gets (w_trace (snd (sample_run sample_web 5 (Some (lit 20))))))
      <= 5)%Z
  /\ count_gets (w_trace (snd (sample_run sample_web 5 (Some (lit 20)))))
     = Z.to_nat 2
  /\ fst (sample_run sample_web 5 (Some (lit 20))) = Ok tt.
Proof.
  assert (H : (1 <= pages (sample_args 5 (Some (lit 20))))%Z) by (cbn; lia).
  split; [exact H|].
  destruct (driver_page_budget UrlJoin.urljoin sample_web sample_sleep
              (sample_args 5 (Some (lit 20))) [] H) as [_ [Hle [_ Hstop]]].
  split; [exact Hle|].
  assert (Hk : (1 <= 2 <= pages (sample_args 5 (Some (lit 20))))%Z) by (cbn; lia).
  destruct (Hstop 2%Z
              {| total := 1; current := page2_url |}
              (snd (page_loop UrlJoin.urljoin sample_web sample_sleep
                      (sample_args 5 (Some (lit 20))) (py_range 1 2)
                      (vars0 (sample_args 5 (Some (lit 20)))) opened))
              page2_soup
              (rows_of (extract_page UrlJoin.urljoin page2_url
                          (Some (lit 20)) page2_soup))
              None Hk) as [Hrun Hn];
    try (vm_compute; reflexivity).
  split; [exact Hn|].
  unfold sample_run. rewrite Hrun. reflexivity.
Defined.

(** C4 fails as stated: with a budget of one page and a next link on that
    page, the run waits after its only request. *)
Lemma trailing_wait_after_last_page :
  w_trace (snd (sample_run sample_web 1 None))
  = [EvGet sample_page_url; EvPrint (MsgPage 1 3); EvSleep (lit 1);
     EvPrint (MsgSaved 3)]
  /\ count_gets (w_trace (snd (sample_run sample_web 1 None))) = 1%nat
  /\ count_sleeps (w_trace (snd (sample_run sample_web 1 None))) = 1%nat
  /\ trailing_waits (w_trace (snd (sample_run sample_web 1 None))) <> 0%nat.
Proof. repeat split; vm_compute; (reflexivity || discriminate). Qed.

Lemma driver_waits_witness :
  (1 <= pages (sample_args 1 None))%Z
  /\ count_sleeps (w_trace (snd (sample_run sample_web 1 None)))
     = Z.to_nat (pages (sample_args 1 None))
  /\ trailing_waits (w_trace (snd (sample_run sample_web 1 None))) = 1%nat.
Proof.
  assert (H : (1 <= pages (sample_args 1 None))%Z) by (cbn; lia).
  split; [exact H|].
  destruct (driver_waits_after_each_continued_page UrlJoin.urljoin sample_web
              sample_sleep (sample_args 1 None) []) as [_ [Hall _]].
  destruct (Hall {| total := 3; current := page2_url |}
              (snd (page_loop UrlJoin.urljoin sample_web sample_sleep
                      (sample_args 1 None) (py_range 1 2)
                      (vars0 (sample_args 1 None)) opened))
              H) as [_ [Hs [Hlast _]]];
    [vm_compute; reflexivity|].
  split; [exact Hs | exact Hlast].
Defined.

(** C5 fails as stated: one card without price element makes the extraction
    of the page and the whole run raise, and no row of the page is
    written. *)
Lemma missing_price_aborts_run :
  In card_without_price (soup_cards damaged_soup)
  /\ card_price_color card_without_price = None
  /\ extract_page UrlJoin.urljoin sample_page_url None damaged_soup
     = Raise AttributeError
  /\ sample_run damaged_web 5 None
     = (Raise AttributeError,
        {| w_file := [HeaderLine header];
           w_trace := [EvGet sample_page_url] |}).
Proof.
  split; [right; left; reflexivity|].
  repeat split; vm_compute; reflexivity.
Qed.

Lemma missing_element_aborts_witness :
  extract_page UrlJoin.urljoin sample_page_url None damaged_soup
  = Raise AttributeError
  /\ page_loop UrlJoin.urljoin damaged_web sample_sleep (sample_args 5 None)
       [1%Z; 2%Z] (vars0 (sample_args 5 None)) opened
     = (Raise AttributeError, logged opened [EvGet sample_page_url]).
Proof.
  apply (missing_element_aborts UrlJoin.urljoin damaged_web sample_sleep
           (sample_args 5 None) 1%Z [2%Z] (vars0 (sample_args 5 None)) opened
           damaged_soup card_without_price).
  - vm_compute. reflexivity.
  - right. left. reflexivity.
  - left. reflexivity.
Defined.

Lemma fetch_failure_witness :
  (1 <= 2 <= pages (sample_args 5 None))%Z
  /\ failing_web 1 page2_url = inl (BadStatus 500)
  /\ fst (sample_run failing_web 5 None) = Raise (RequestError (BadStatus 500))
  /\ List.length (w_file (snd (sample_run failing_web 5 None))) = 4%nat
  /\ count_gets (w_trace (snd (sample_run failing_web 5 None))) = Z.to_nat 2.
Proof.
  assert (Hk : (1 <= 2 <= pages (sample_args 5 None))%Z) by (cbn; lia).
  assert (Hf : failing_web 1 page2_url = inl (BadStatus 500))
    by (vm_compute; reflexivity).
  split; [exact Hk|]. split; [exact Hf|].
  destruct (fetch_failure_keeps_written_rows UrlJoin.urljoin failing_web
              sample_sleep (sample_args 5 None) [] 2%Z
              {| total := 3; current := page2_url |}
              (snd (page_loop UrlJoin.urljoin failing_web sample_sleep
                      (sample_args 5 None) (py_range 1 2)
                      (vars0 (sample_args 5 None)) opened))
              (BadStatus 500) Hk) as [Hrun [Hfile [_ Hn]]];
    try (vm_compute; reflexivity).
  split; [unfold sample_run; now rewrite Hrun|].
  split; [|exact Hn].
  unfold sample_run. rewrite Hfile. vm_compute. reflexivity.
Defined.

(** The end-to-end scenario: a budget of five pages and a maximum price
    of 20 on the two-page catalogue give the rows priced 10, 5 and 15, after
    two requests and one wait. *)
Example end_to_end_scenario :
  sample_run sample_web 5 (Some (lit 20))
  = (Ok tt,
     {| w_file :=
          HeaderLine header
          :: List.map RowLine
               (rows_of (extract_page UrlJoin.urljoin sample_page_url
                           (Some (lit 20)) page1_soup)
                ++ rows_of (extract_page UrlJoin.urljoin page2_url
                              (Some (lit 20)) page2_soup));
        w_trace :=
          [EvGet sample_page_url; EvPrint (MsgPage 1 1); EvSleep (lit 1);
           EvGet page2_url; EvPrint (MsgPage 2 2); EvPrint (MsgSaved 3)] |})
  /\ List.map price_value
       (rows_of (extract_page UrlJoin.urljoin sample_page_url
                   (Some (lit 20)) page1_soup)
        ++ rows_of (extract_page UrlJoin.urljoin page2_url
                      (Some (lit 20)) page2_soup))
     = [Some (lit 10); Some (lit 5); Some (lit 15)].
Proof. split; vm_compute; reflexivity. Qed.

(** ** Item URL *)

(** C8 fails as stated: against the page URL of the example, the href
    ["catalogue/item_1/index.html"] keeps the directory of the page and so
    names [catalogue] twice. *)
Lemma item_url_keeps_page_directory :
  List.map url
    (rows_of (extract_page UrlJoin.urljoin sample_page_url None
                {| soup_cards :=
                     [sample_card (str "catalogue/item_1/index.html")
                        (pound :: str "51.77")];
                   soup_next_a := None |}))
  = [str "https://example.com/catalogue/catalogue/item_1/index.html"]
  /\ UrlJoin.urljoin (str "https://example.com/catalogue/page-1.html")
       (str "catalogue/item_1/index.html")
     <> str "https://example.com/catalogue/item_1/index.html".
Proof. split; vm_compute; [reflexivity | discriminate]. Qed.

(** C8, as the code has it.  The URL of a row is the card's href, or the
    empty string without one, resolved against the URL of the page.  Against
    ["https://example.com/catalogue/page-1.html"] the href
    ["catalogue/item_1/index.html"] gives
    ["https://example.com/catalogue/catalogue/item_1/index.html"] and
    ["item_1/index.html"] gives
    ["https://example.com/catalogue/item_1/index.html"]; a path from the
    root, a scheme-relative and an absolute href replace the path, the
    authority and the whole URL. *)
Theorem item_url_resolution (page_url : pystr) (card : Card) (row : Row) :
  extract_card UrlJoin.urljoin page_url card = Ok row ->
  (exists h3 a,
     card_h3 card = Some h3 /\ h3_a h3 = Some a
     /\ url row = UrlJoin.urljoin page_url (attr_get (a_href a) []))
  /\ UrlJoin.urljoin sample_page_url (str "catalogue/item_1/index.html")
     = str "https://example.com/catalogue/catalogue/item_1/index.html"
  /\ UrlJoin.urljoin sample_page_url (str "item_1/index.html")
     = str "https://example.com/catalogue/item_1/index.html"
  /\ UrlJoin.urljoin sample_page_url (str "../media/cover.jpg")
     = str "https://example.com/media/cover.jpg"
  /\ UrlJoin.urljoin sample_page_url (str "/catalogue/item_1/index.html")
     = str "https://example.com/catalogue/item_1/index.html"
  /\ UrlJoin.urljoin sample_page_url (str "//cdn.example.org/item_1/index.html")
     = str "https://cdn.example.org/item_1/index.html"
  /\ UrlJoin.urljoin sample_page_url (str "http://other.example.net/a/b.html?c=d#e")
     = str "http://other.example.net/a/b.html?c=d#e"
  /\ UrlJoin.urljoin sample_page_url [] = sample_page_url.
Proof.
  intros H. split.
  - destruct (extract_card_fields _ _ _ _ H)
      as [h3 [a [text [st [Hh [Ha [_ [_ ->]]]]]]]].
    now exists h3, a.
  - repeat split; vm_compute; reflexivity.
Qed.

Lemma item_url_resolution_witness :
  extract_card UrlJoin.urljoin sample_page_url (priced "51.77")
  = Ok {| title := str "A Light in the Attic";
          price_raw := pound :: str "51.77";
          price_value := Some (lit 51.77);
          stock := str "In stock";
          url := str "https://example.com/catalogue/item_1/index.html" |}
  /\ exists h3 a,
       card_h3 (priced "51.77") = Some h3 /\ h3_a h3 = Some a
       /\ str "https://example.com/catalogue/item_1/index.html"
          = UrlJoin.urljoin sample_page_url (attr_get (a_href a) []).
Proof.
  assert (H : extract_card UrlJoin.urljoin sample_page_url (priced "51.77")
              = Ok {| title := str "A Light in the Attic";
                      price_raw := pound :: str "51.77";
                      price_value := Some (lit 51.77);
                      stock := str "In stock";
                      url := str "https://example.com/catalogue/item_1/index.html" |})
    by (vm_compute; reflexivity).
  split; [exact H|].
  exact (proj1 (item_url_resolution _ _ _ H)).
Defined.

(** ** Raw price *)

(** C9 fails as stated: of a price text that starts with U+00C2 U+00C2
    U+00A3, the repaired text still starts with U+00C2 U+00A3. *)
Lemma price_raw_keeps_mojibake :
  List.map price_raw
    (rows_of (extract_page UrlJoin.urljoin sample_page_url None
                {| soup_cards :=
                     [sample_card (str "item_1/index.html")
                        (a_circ :: a_circ :: pound :: str "51.77")];
                   soup_next_a := None |}))
  = [a_circ :: pound :: str "51.77"]
  /\ str_contains mojibake (a_circ :: pound :: str "51.77") = true.
Proof. split; vm_compute; reflexivity. Qed.

(** C9, as the code has it.  The raw price of a row is the price text of its
    card with each occurrence of U+00C2 U+00A3, taken from the left, replaced
    by U+00A3.  The result holds U+00C2 U+00A3 exactly when the text held
    U+00C2 U+00C2 U+00A3; a text without that holds no mis-decoded pound sign
    after the repair. *)
Theorem price_raw_repair (urljoin : pystr -> pystr -> pystr)
    (page_url : pystr) (card : Card) (row : Row) :
  extract_card urljoin page_url card = Ok row ->
  exists text,
    card_price_color card = Some text
    /\ price_raw row = str_replace mojibake [pound] text
    /\ str_contains mojibake (price_raw row)
       = str_contains (a_circ :: mojibake) text
    /\ (str_contains (a_circ :: mojibake) text = false ->
        str_contains mojibake (price_raw row) = false).
Proof.
  intros H.
  destruct (extract_card_fields _ _ _ _ H)
    as [h3 [a [text [st [_ [_ [Ht [_ ->]]]]]]]].
  exists text. cbn [price_raw]. rewrite fix_pound_replace.
  split; [exact Ht|]. split; [reflexivity|].
  rewrite replace_mojibake_contains. split; [reflexivity | tauto].
Qed.

Lemma price_raw_repair_witness :
  exists text,
    card_price_color (sample_card (str "item_1/index.html")
                        (a_circ :: pound :: str "51.77")) = Some text
    /\ pound :: str "51.77" = str_replace mojibake [pound] text
    /\ str_contains mojibake (pound :: str "51.77")
       = str_contains (a_circ :: mojibake) text
    /\ (str_contains (a_circ :: mojibake) text = false ->
        str_contains mojibake (pound :: str "51.77") = false).
Proof.
  apply (price_raw_repair UrlJoin.urljoin sample_page_url
           (sample_card (str "item_1/index.html")
              (a_circ :: pound :: str "51.77"))
           {| title := str "A Light in the Attic";
              price_raw := pound :: str "51.77";
              price_value := Some (lit 51.77);
              stock := str "In stock";
              url := str "https://example.com/catalogue/item_1/index.html" |}).
  vm_compute. reflexivity.
Defined.

(** * Further properties *)

(** ** Price normaliser: what the text may contain *)

Section PriceMore.

Lemma clean_idempotent (raw : pystr) : clean (clean raw) = clean raw.
Proof.
  unfold clean. induction raw as [|c t IH]; [reflexivity|].
  cbn [List.filter]. destruct (price_char c) eqn:E; [|exact IH].
  cbn [List.filter]. now rewrite E, IH.
Qed.

Lemma normalize_nil : py_float (normalize_separators []) = None.
Proof. reflexivity. Qed.

(** The result is a function of the cleaned string. *)
Lemma parse_price_of_clean (raw : pystr) :
  parse_price (Some raw) = py_float (normalize_separators (clean raw)).
Proof. destruct raw; reflexivity. Qed.

(** X1.  [parse_price] reads the digits, commas and periods of its argument
    and nothing else: two texts with the same cleaned string have the same
    result, and a text has the result of its cleaned string. *)
Theorem parse_price_ignores_noise (raw other : pystr) :
  clean raw = clean other ->
  parse_price (Some raw) = parse_price (Some other)
  /\ parse_price (Some raw) = parse_price (Some (clean raw)).
Proof.
  intros H. rewrite !parse_price_of_clean, clean_idempotent, H. now split.
Qed.

Lemma parse_price_ignores_noise_witness :
  clean (pound :: str "51.77") = clean (str "GBP -51.77 net")
  /\ parse_price (Some (pound :: str "51.77"))
     = parse_price (Some (str "GBP -51.77 net")).
Proof.
  assert (H : clean (pound :: str "51.77") = clean (str "GBP -51.77 net"))
    by (vm_compute; reflexivity).
  split; [exact H|].
  exact (proj1 (parse_price_ignores_noise _ _ H)).
Defined.

Lemma digits_without (sep : char) (d : pystr) :
  is_separator sep = true -> List.forallb is_digit d = true -> ~ In sep d.
Proof.
  intros Hs Hd Hin. rewrite forallb_forall in Hd.
  rewrite (digit_not_separator sep (Hd sep Hin)) in Hs. discriminate.
Qed.

(** X2.  A single separator is the decimal point, be it a comma or a period:
    when the cleaned string is digits, one separator, digits, the value is
    that of the digits with as many decimals as follow the separator.  So
    ["1,234"] is read as 1.234. *)
Theorem parse_price_single_separator (raw a c : pystr) (sep : char) :
  sep = comma \/ sep = period ->
  clean raw = a ++ sep :: c ->
  List.forallb is_digit a = true -> List.forallb is_digit c = true ->
  a ++ c <> [] ->
  parse_price (Some raw)
  = Some (of_decimal (digits_value (a ++ c)) (List.length c)).
Proof.
  intros Hsep Hclean Ha Hc Hne.
  rewrite parse_price_of_clean, Hclean.
  assert (Hone : ~ In comma (a ++ sep :: c) \/ ~ In period (a ++ sep :: c)).
  { destruct Hsep as [->| ->]; [right | left]; intros Hin;
      apply in_app_or in Hin; destruct Hin as [Hin|[Hin|Hin]];
      try discriminate Hin;
      revert Hin; now apply digits_without. }
  rewrite (normalize_one_kind _ Hone), map_app. cbn [List.map].
  rewrite !(map_digits _ _ comma_to_period_digit) by assumption.
  replace (comma_to_period sep) with period
    by (destruct Hsep as [->| ->]; reflexivity).
  now apply py_float_decimal.
Qed.

Lemma parse_price_single_separator_witness :
  parse_price (Some (str "EUR 1,234"))
  = Some (of_decimal (digits_value (str "1234")) 3)
  /\ parse_price (Some (str "EUR 1,234")) = Some (lit 1.234).
Proof.
  split; [|vm_compute; reflexivity].
  apply (parse_price_single_separator (str "EUR 1,234") (str "1") (str "234") comma).
  - now left.
  - vm_compute. reflexivity.
  - reflexivity.
  - reflexivity.
  - discriminate.
Defined.

(** X3.  Without any comma or period the digits of the text, in their order,
    are read as one integer, whatever stands between them. *)
Theorem parse_price_digits_only (raw : pystr) :
  List.forallb is_digit (clean raw) = true -> clean raw <> [] ->
  parse_price (Some raw) = Some (of_decimal (digits_value (clean raw)) 0).
Proof.
  intros Hd Hne. rewrite parse_price_of_clean.
  assert (Hone : ~ In comma (clean raw) \/ ~ In period (clean raw))
    by (left; now apply digits_without).
  rewrite (normalize_one_kind _ Hone).
  rewrite (map_digits _ _ comma_to_period_digit Hd).
  unfold py_float. rewrite (span_digits_all _ Hd).
  destruct (clean raw); [congruence | reflexivity].
Qed.

Lemma parse_price_digits_only_witness :
  parse_price (Some (str "1e5 (approx 12 items)"))
  = Some (of_decimal (digits_value (str "1512")) 0)
  /\ parse_price (Some (str "1e5 (approx 12 items)")) = Some (lit 1512).
Proof.
  split; [|vm_compute; reflexivity].
  apply (parse_price_digits_only (str "1e5 (approx 12 items)")).
  - vm_compute. reflexivity.
  - vm_compute. discriminate.
Defined.

Lemma occurrences_app (c : char) (a b : pystr) :
  occurrences c (a ++ b) = (occurrences c a + occurrences c b)%nat.
Proof. unfold occurrences. now rewrite filter_app, length_app. Qed.

Lemma occurrences_comma_to_period (s : pystr) :
  occurrences period (List.map comma_to_period s)
  = (occurrences comma s + occurrences period s)%nat.
Proof.
  unfold occurrences, comma_to_period.
  induction s as [|x t IH]; [reflexivity|].
  cbn [List.map List.filter].
  rewrite (N.eqb_sym comma x), (N.eqb_sym period x).
  destruct (N.eqb_spec x comma) as [Hc|Hc].
  - rewrite Hc. change (comma =? period) with false.
    rewrite N.eqb_refl. cbn [List.length]. lia.
  - rewrite (N.eqb_sym period x).
    destruct (x =? period); cbn [List.length]; lia.
Qed.

Lemma occurrences_without_same (c : char) (s : pystr) :
  occurrences c (without c s) = 0%nat.
Proof.
  unfold occurrences, without.
  induction s as [|x t IH]; [reflexivity|].
  cbn [List.filter]. destruct (N.eqb_spec x c) as [Hx|Hx]; cbn [negb]; [exact IH|].
  cbn [List.filter]. rewrite (N.eqb_sym c x).
  destruct (N.eqb_spec x c); [contradiction | exact IH].
Qed.

Lemma occurrences_without_other (c d : char) (s : pystr) :
  c <> d -> occurrences c (without d s) = occurrences c s.
Proof.
  intros Hcd. unfold occurrences, without.
  induction s as [|x t IH]; [reflexivity|].
  cbn [List.filter]. destruct (N.eqb_spec x d) as [Hx|Hx]; cbn [negb].
  - subst x. destruct (N.eqb_spec c d); [contradiction | exact IH].
  - cbn [List.filter]. destruct (c =? x); cbn [List.length]; now rewrite IH.
Qed.

Lemma last_separator_kind (s : pystr) (sep : char) :
  last_separator s = Some sep -> (sep = comma \/ sep = period) /\ In sep s.
Proof.
  unfold last_separator. intros H. apply find_some in H.
  destruct H as [Hin Hs]. apply in_rev in Hin. split; [|exact Hin].
  unfold is_separator in Hs. apply orb_true_iff in Hs.
  destruct Hs as [Hs|Hs]; apply N.eqb_eq in Hs; auto.
Qed.

(** X4.  The separator that occurs last must occur only once: a text whose
    last separator is repeated has no price, so ["1,234,567"] and
    ["1.234.567"] give [None]. *)
Theorem parse_price_repeated_separator (raw : pystr) (sep : char) :
  last_separator (clean raw) = Some sep ->
  (2 <= occurrences sep (clean raw))%nat ->
  parse_price (Some raw) = None.
Proof.
  intros Hlast Hocc. rewrite parse_price_of_clean.
  apply py_float_none_iff. unfold decimal_numeral.
  destruct (last_separator_kind _ _ Hlast) as [Hkind Hin].
  set (s := clean raw) in *.
  assert (Hmany : (2 <= occurrences period (normalize_separators s))%nat).
  { destruct (in_dec N.eq_dec comma s) as [Hc|Hc];
      [destruct (in_dec N.eq_dec period s) as [Hp|Hp]|].
    - rewrite (normalize_both s Hc Hp), Hlast.
      destruct Hkind as [->| ->].
      + rewrite N.eqb_refl, occurrences_comma_to_period.
        rewrite occurrences_without_same, occurrences_without_other by discriminate.
        lia.
      + change (period =? comma) with false. cbv iota.
        rewrite occurrences_without_other by discriminate. exact Hocc.
    - rewrite normalize_one_kind by tauto.
      rewrite occurrences_comma_to_period.
      destruct Hkind as [->| ->]; [lia | contradiction].
    - rewrite normalize_one_kind by tauto.
      rewrite occurrences_comma_to_period.
      destruct Hkind as [->| ->]; [contradiction | lia]. }
  unfold occurrences in Hmany. apply Nat.leb_gt in Hmany.
  rewrite Hmany. now rewrite andb_false_r.
Qed.

Lemma parse_price_repeated_separator_witness :
  last_separator (clean (str "USD 1,234,567")) = Some comma
  /\ (2 <= occurrences comma (clean (str "USD 1,234,567")))%nat
  /\ parse_price (Some (str "USD 1,234,567")) = None.
Proof.
  assert (H1 : last_separator (clean (str "USD 1,234,567")) = Some comma)
    by (vm_compute; reflexivity).
  assert (H2 : (2 <= occurrences comma (clean (str "USD 1,234,567")))%nat)
    by (vm_compute; lia).
  split; [exact H1|]. split; [exact H2|].
  exact (parse_price_repeated_separator _ _ H1 H2).
Defined.

Lemma shr_1_nonneg (mrs : shr_record) :
  (0 <= shr_m mrs)%Z -> (0 <= shr_m (shr_1 mrs))%Z.
Proof.
  destruct mrs as [m r st]. cbn [shr_m]. intros H.
  destruct m as [|[q|q|]|q]; cbn; lia.
Qed.

Lemma iter_shr_1_nonneg (p : positive) (mrs : shr_record) :
  (0 <= shr_m mrs)%Z -> (0 <= shr_m (iter_pos shr_1 p mrs))%Z.
Proof.
  revert mrs. induction p as [p IH|p IH|]; intros mrs H; cbn [iter_pos].
  - apply IH, IH. now apply shr_1_nonneg.
  - now apply IH, IH.
  - now apply shr_1_nonneg.
Qed.

Lemma shr_fexp_nonneg (m e : Z) (l : location) :
  (0 <= m)%Z -> (0 <= shr_m (fst (shr_fexp prec emax m e l)))%Z.
Proof.
  intros H. unfold shr_fexp, shr.
  assert (H0 : (0 <= shr_m (shr_record_of_loc m l))%Z)
    by (destruct l as [|[| |]]; exact H).
  destruct (fexp prec emax (Zdigits2 m + e) - e)%Z; cbn [fst]; try exact H0.
  now apply iter_shr_1_nonneg.
Qed.

Lemma round_nearest_even_nonneg (m : Z) (l : location) :
  (0 <= m)%Z -> (0 <= round_nearest_even m l)%Z.
Proof.
  intros H. unfold round_nearest_even.
  destruct l as [|[| |]]; try lia. destruct (Z.even m); lia.
Qed.

Lemma binary_round_aux_nonneg (m e : Z) (l : location) :
  (0 <= m)%Z -> nonnegative (binary_round_aux prec emax false m e l) = true.
Proof.
  intros H. unfold binary_round_aux.
  pose proof (shr_fexp_nonneg m e l H) as H1.
  destruct (shr_fexp prec emax m e l) as [mrs1 e1]. cbn [fst] in H1.
  pose proof (shr_fexp_nonneg _ e1 loc_Exact
                (round_nearest_even_nonneg _ (loc_of_shr_record mrs1) H1)) as H2.
  destruct (shr_fexp prec emax _ e1 loc_Exact) as [mrs2 e2]. cbn [fst] in H2.
  destruct (shr_m mrs2) as [|q|q]; [reflexivity| |lia].
  now destruct (e2 <=? emax - prec)%Z.
Qed.

Lemma of_decimal_nonneg (m : N) (k : nat) : nonnegative (of_decimal m k) = true.
Proof.
  destruct m as [|p]; [reflexivity|].
  unfold of_decimal, SFdiv, SFdiv_core_binary.
  set (m' := match (0 - 0 - _)%Z with
             | Z0 => Z.pos p
             | Z.pos _ => Z.shiftl (Z.pos p) _
             | Z.neg _ => 0%Z
             end).
  assert (Hm : (0 <= m')%Z).
  { unfold m'. destruct (0 - 0 - _)%Z; try lia. now apply Z.shiftl_nonneg. }
  pose proof (Z.div_pos m' (Z.pos (pow10 k)) Hm ltac:(lia)) as Hq.
  unfold Z.div in Hq.
  destruct (Z.div_eucl m' (Z.pos (pow10 k))) as [q r]. cbn [fst] in Hq.
  now apply binary_round_aux_nonneg.
Qed.

(** X5.  A price is never negative and never a NaN: signs are dropped with
    the other characters, and what [float] gets holds digits and points
    only. *)
Theorem parse_price_nonnegative (raw : option pystr) (v : float) :
  parse_price raw = Some v -> nonnegative v = true.
Proof.
  destruct raw as [raw|]; [|discriminate].
  rewrite parse_price_of_clean. unfold py_float.
  destruct (span_digits _) as [ip r1].
  destruct r1 as [|c r2].
  - destruct ip; [discriminate|]. intros H. inversion H. apply of_decimal_nonneg.
  - destruct (c =? period); [|discriminate].
    destruct (span_digits r2) as [fp r3].
    destruct r3; [|discriminate]. destruct (ip ++ fp); [discriminate|].
    intros H. inversion H. apply of_decimal_nonneg.
Qed.

Lemma parse_price_nonnegative_witness :
  parse_price (Some (str "-5.00")) = Some (lit 5)
  /\ nonnegative (lit 5) = true.
Proof.
  assert (H : parse_price (Some (str "-5.00")) = Some (lit 5))
    by (vm_compute; reflexivity).
  split; [exact H|].
  exact (parse_price_nonnegative _ _ H).
Defined.

End PriceMore.


(** ** Extractor: fields of a row *)

Section ExtractorMore.

Variable urljoin : pystr -> pystr -> pystr.

Lemma clean_replace_mojibake (s : pystr) :
  clean (str_replace mojibake [pound] s) = clean s.
Proof.
  remember (List.length s) as n eqn:Hn.
  revert s Hn. induction n as [n IH] using lt_wf_ind. intros s Hn.
  destruct s as [|c t]; [reflexivity|].
  destruct (starts_with mojibake (c :: t)) eqn:Es.
  - destruct (starts_with_mojibake _ Es) as [t' Ht']. inversion Ht'; subst c t.
    rewrite replace_mojibake_hit.
    change (clean (pound :: str_replace mojibake [pound] t'))
      with (clean (str_replace mojibake [pound] t')).
    change (clean (a_circ :: pound :: t')) with (clean t').
    exact (IH (List.length t') ltac:(subst n; simpl; lia) t' eq_refl).
  - rewrite (replace_mojibake_miss _ _ Es). unfold clean. cbn [List.filter].
    fold (clean (str_replace mojibake [pound] t)). fold (clean t).
    now rewrite (IH (List.length t) ltac:(subst n; simpl; lia) t eq_refl).
Qed.

(** X6.  The repair of the pound sign does not touch the number: the price
    value of a row is what [parse_price] gives for the price text as the
    page has it, and also for the raw price of the row. *)
Theorem price_value_of_page_text (page_url : pystr) (card : Card) (row : Row) :
  extract_card urljoin page_url card = Ok row ->
  exists text,
    card_price_color card = Some text
    /\ price_value row = parse_price (Some text)
    /\ price_value row = parse_price (Some (price_raw row)).
Proof.
  intros H.
  destruct (extract_card_fields _ _ _ _ H)
    as [h3 [a [text [st [_ [_ [Ht [_ ->]]]]]]]].
  exists text. cbn [price_value price_raw].
  split; [exact Ht|]. split; [|reflexivity].
  rewrite !parse_price_of_clean, fix_pound_replace.
  now rewrite clean_replace_mojibake.
Qed.

Lemma lstrip_spec (s : pystr) :
  exists pre,
    s = pre ++ lstrip s /\ List.forallb is_space pre = true
    /\ starts_with_space (lstrip s) = false.
Proof.
  induction s as [|c t IH].
  - exists []. repeat split.
  - cbn [lstrip]. destruct (is_space c) eqn:Ec.
    + destruct IH as [pre [Ht [Hpre Hhead]]].
      exists (c :: pre). cbn [app List.forallb]. rewrite Ec, Hpre, <- Ht.
      repeat split. exact Hhead.
    + exists []. cbn [app List.forallb starts_with_space].
      repeat split. exact Ec.
Qed.

Lemma forallb_rev {A} (f : A -> bool) (l : list A) :
  List.forallb f l = true -> List.forallb f (List.rev l) = true.
Proof.
  rewrite !forallb_forall. intros H x Hx. apply H. now apply in_rev.
Qed.

(** What [strip] does: it takes whitespace off both ends and leaves a text
    that neither starts nor ends with whitespace. *)
Lemma str_strip_spec (s : pystr) :
  exists pre post,
    s = pre ++ str_strip s ++ post
    /\ List.forallb is_space pre = true /\ List.forallb is_space post = true
    /\ starts_with_space (str_strip s) = false
    /\ ends_with_space (str_strip s) = false.
Proof.
  unfold str_strip, ends_with_space.
  destruct (lstrip_spec s) as [pre [Hs [Hpre Hhead]]].
  destruct (lstrip_spec (List.rev (lstrip s))) as [post [Ht [Hpost Hlast]]].
  assert (Hmid : lstrip s = List.rev (lstrip (List.rev (lstrip s))) ++ List.rev post).
  { rewrite <- rev_app_distr, <- Ht. now rewrite rev_involutive. }
  exists pre, (List.rev post).
  split; [now rewrite <- Hmid|]. split; [exact Hpre|].
  split; [now apply forallb_rev|]. split; [|now rewrite rev_involutive].
  rewrite Hmid in Hhead.
  destruct (List.rev (lstrip (List.rev (lstrip s)))); [reflexivity | exact Hhead].
Qed.

(** X7.  The title of a row is the title attribute of the card's link
    without the whitespace at its ends: only whitespace is cut off, and the
    title neither starts nor ends with whitespace.  A link without title
    attribute gives the empty title. *)
Theorem title_is_stripped_attribute (page_url : pystr) (card : Card) (row : Row) :
  extract_card urljoin page_url card = Ok row ->
  exists h3 a pre post,
    card_h3 card = Some h3 /\ h3_a h3 = Some a
    /\ attr_get (a_title a) [] = pre ++ title row ++ post
    /\ List.forallb is_space pre = true /\ List.forallb is_space post = true
    /\ starts_with_space (title row) = false
    /\ ends_with_space (title row) = false
    /\ (a_title a = None -> title row = []).
Proof.
  intros H.
  destruct (extract_card_fields _ _ _ _ H)
    as [h3 [a [text [st [Hh [Ha [_ [_ ->]]]]]]]].
  destruct (str_strip_spec (attr_get (a_title a) []))
    as [pre [post [Hs [Hpre [Hpost [Hstart Hend]]]]]].
  exists h3, a, pre, post. cbn [title].
  repeat (split; [assumption|]).
  now intros ->.
Qed.

Lemma extract_page_eq (page_url : pystr) (max_price : option float) (soup : Soup) :
  extract_page urljoin page_url max_price soup
  = (all <-? extract_all urljoin page_url (soup_cards soup) ;;
     next_url <-? next_link urljoin page_url soup ;;
     Ok (List.filter (keeps max_price) all, next_url)).
Proof.
  unfold extract_page. rewrite scrape_cards_filter.
  now destruct (extract_all urljoin page_url (soup_cards soup)).
Qed.

Lemma filter_keeps_none (all : list Row) : List.filter (keeps None) all = all.
Proof. induction all as [|r t IH]; [reflexivity|]. cbn. now rewrite IH. Qed.

(** X8.  The filter decides which rows are returned and nothing else: when
    the page extracts without filter, it extracts under every maximum price,
    with the same next URL and with the rows that pass; and an exception of
    the extraction is the same under every maximum price. *)
Theorem filter_changes_rows_only (page_url : pystr) (soup : Soup) :
  (forall all next_url,
     extract_page urljoin page_url None soup = Ok (all, next_url) ->
     forall max_price,
       extract_page urljoin page_url max_price soup
       = Ok (List.filter (keeps max_price) all, next_url))
  /\ (forall max_price e,
        extract_page urljoin page_url max_price soup = Raise e ->
        forall other, extract_page urljoin page_url other soup = Raise e).
Proof.
  split.
  - intros all next_url H max_price. rewrite extract_page_eq in *.
    destruct (extract_all urljoin page_url (soup_cards soup)) as [rows|e];
      cbn [rbind] in *; [|discriminate].
    destruct (next_link urljoin page_url soup) as [nu|e];
      cbn [rbind] in *; [|discriminate].
    rewrite filter_keeps_none in H. now inversion H.
  - intros max_price e H other. rewrite extract_page_eq in *.
    destruct (extract_all urljoin page_url (soup_cards soup)) as [rows|e'];
      cbn [rbind] in *; [|exact H].
    destruct (next_link urljoin page_url soup) as [nu|e'];
      cbn [rbind] in *; [discriminate | exact H].
Qed.

Lemma leb_trans (a b c : float) :
  PyFloat.leb a b = true -> PyFloat.leb b c = true -> PyFloat.leb a c = true.
Proof.
  unfold PyFloat.leb, SFleb, SFcompare.
  destruct a as [sa|sa| |sa ma ea], b as [sb|sb| |sb mb eb], c as [sc|sc| |sc mc ec];
    try destruct sa; try destruct sb; try destruct sc;
    try discriminate; try reflexivity;
    change (Pos.compare_cont Eq) with Pos.compare;
    repeat match goal with
           | |- context [(?x ?= ?y)%Z] => destruct (Z.compare_spec x y)
           | |- context [(?x ?= ?y)%positive] => destruct (Pos.compare_spec x y)
           end;
    cbn [CompOpp]; try discriminate; try reflexivity; intros; exfalso; subst; lia.
Qed.

Lemma keeps_higher_limit (low high : float) (r : Row) :
  PyFloat.leb low high = true ->
  keeps (Some low) r = true -> keeps (Some high) r = true.
Proof.
  unfold keeps, passes_filter. intros Hle.
  destruct (price_value r) as [v|]; [|discriminate].
  intros Hv. exact (leb_trans _ _ _ Hv Hle).
Qed.

Lemma filter_length_mono (f g : Row -> bool) (l : list Row) :
  (forall r, f r = true -> g r = true) ->
  (List.length (List.filter f l) <= List.length (List.filter g l))%nat.
Proof.
  intros Hfg. induction l as [|r t IH]; [apply le_n|].
  cbn [List.filter]. destruct (f r) eqn:Ef.
  - rewrite (Hfg r Ef). cbn [List.length]. lia.
  - destruct (g r); cbn [List.length]; lia.
Qed.

(** X9.  Raising the maximum price never loses a row: under a maximum that
    is at least as high, the page gives the same next URL, every row it gave
    before, and at least as many rows. *)
Theorem higher_limit_keeps_rows (page_url : pystr) (soup : Soup)
    (low high : float) (rows : list Row) (next_url : option pystr) :
  PyFloat.leb low high = true ->
  extract_page urljoin page_url (Some low) soup = Ok (rows, next_url) ->
  exists more,
    extract_page urljoin page_url (Some high) soup = Ok (more, next_url)
    /\ (forall r, In r rows -> In r more)
    /\ (List.length rows <= List.length more)%nat.
Proof.
  intros Hle H. rewrite extract_page_eq in *.
  destruct (extract_all urljoin page_url (soup_cards soup)) as [all|e];
    cbn [rbind] in *; [|discriminate].
  destruct (next_link urljoin page_url soup) as [nu|e];
    cbn [rbind] in *; [|discriminate].
  inversion H; subst. clear H. eexists. split; [reflexivity|]. split.
  - intros r Hr. apply filter_In in Hr. destruct Hr as [Hin Hk].
    apply filter_In. split; [exact Hin|]. now apply (keeps_higher_limit low).
  - apply filter_length_mono. intros r. now apply keeps_higher_limit.
Qed.

Lemma extract_all_complete (page_url : pystr) (cards : list Card) :
  (forall card, In card cards -> ~ lacks_element card) ->
  exists all,
    extract_all urljoin page_url cards = Ok all
    /\ List.length all = List.length cards.
Proof.
  induction cards as [|card rest IH]; intros H.
  - now exists [].
  - cbn [extract_all].
    destruct (extract_card urljoin page_url card) as [row|e] eqn:Ec.
    + destruct IH as [all [Hall Hlen]].
      { intros c Hc. apply H. now right. }
      exists (row :: all). rewrite Hall. cbn. now rewrite Hlen.
    + pose proof (extract_card_raises _ _ _ _ Ec) as He. subst e.
      apply extract_card_lacking in Ec. exfalso.
      exact (H card (or_introl eq_refl) Ec).
Qed.

Lemma extract_all_cards (page_url : pystr) (cards : list Card) (all : list Row) :
  extract_all urljoin page_url cards = Ok all ->
  Forall2 (fun card row => extract_card urljoin page_url card = Ok row)
    cards all.
Proof.
  revert all. induction cards as [|card rest IH]; intros all H.
  - inversion H. constructor.
  - cbn [extract_all] in H.
    destruct (extract_card urljoin page_url card) as [row|e] eqn:Ec;
      cbn [rbind] in H; [|discriminate].
    destruct (extract_all urljoin page_url rest) as [more|e];
      cbn [rbind] in H; [|discriminate].
    inversion H; subst. constructor; [exact Ec | now apply IH].
Qed.

(** X15.  A page never gives more rows than it has cards, and without
    maximum price it gives one row per card, in the order of the cards: the
    rows are those of the cards, one after the other, that pass the
    filter. *)
Theorem rows_follow_cards (page_url : pystr) (max_price : option float)
    (soup : Soup) (rows : list Row) (next_url : option pystr) :
  extract_page urljoin page_url max_price soup = Ok (rows, next_url) ->
  exists all,
    Forall2 (fun card row => extract_card urljoin page_url card = Ok row)
      (soup_cards soup) all
    /\ rows = List.filter (keeps max_price) all
    /\ (List.length rows <= List.length (soup_cards soup))%nat
    /\ (max_price = None ->
        rows = all /\ List.length rows = List.length (soup_cards soup)).
Proof.
  intros H. rewrite extract_page_eq in H.
  destruct (extract_all urljoin page_url (soup_cards soup)) as [all|e] eqn:Ea;
    cbn [rbind] in H; [|discriminate].
  destruct (next_link urljoin page_url soup) as [nu|e];
    cbn [rbind] in H; [|discriminate].
  inversion H; subst. clear H.
  pose proof (extract_all_cards _ _ _ Ea) as Hall.
  pose proof (Forall2_length Hall) as Hlen.
  exists all. split; [exact Hall|]. split; [reflexivity|]. split.
  - rewrite Hlen. apply filter_length_le.
  - intros ->. rewrite filter_keeps_none. now split.
Qed.

End ExtractorMore.

(** ** Driver: totals, budget, delay *)

Section DriverMore.

Variable urljoin : pystr -> pystr -> pystr.
Variable http_get : nat -> pystr -> http_failure + Soup.
Variable sleep_check : float -> option exn.
Variable args : Args.

Local Abbreviation loop := (page_loop urljoin http_get sleep_check).
Local Abbreviation run := (main_with_writer urljoin http_get sleep_check).

Lemma printed_rows_app (a b : list event) :
  printed_rows (a ++ b) = (printed_rows a + printed_rows b)%Z.
Proof.
  induction a as [|e t IH]; [reflexivity|].
  cbn [app printed_rows]. destruct e as [u|d|[p n|n]]; rewrite IH; lia.
Qed.

(** The total of the loop variables follows the rows written. *)
Lemma page_loop_total (nums : list Z) :
  forall vars w ex vars' w',
    loop args nums vars w = (Ok (ex, vars'), w') ->
    exists rows,
      w_file w' = w_file w ++ List.map RowLine rows
      /\ total vars' = (total vars + Z.of_nat (List.length rows))%Z
      /\ printed_rows (w_trace w')
         = (printed_rows (w_trace w) + Z.of_nat (List.length rows))%Z.
Proof.
  induction nums as [|p later IH]; intros vars w ex vars' w' H.
  - rewrite page_loop_nil in H. inversion H; subst.
    exists []. cbn. rewrite app_nil_r. repeat split; lia.
  - rewrite page_loop_step in H. cbv zeta in H.
    destruct (http_get _ _) as [f|soup]; [discriminate|].
    destruct (extract_page _ _ _ _) as [[rows nu]|e]; [|discriminate].
    destruct (next_page nu) as [u|].
    + destruct (sleep_check _) as [e|]; [discriminate|].
      destruct (IH _ _ _ _ _ H) as [rows' [Hf [Ht Hp]]].
      exists (rows ++ rows'). rewrite Hf, Ht, Hp.
      cbn [advanced w_file w_trace total].
      rewrite map_app, length_app, !printed_rows_app, app_assoc.
      cbn [printed_rows]. repeat split; lia.
    + inversion H; subst. exists rows.
      cbn [advanced w_file w_trace total]. rewrite printed_rows_app.
      cbn [printed_rows]. repeat split; lia.
Qed.

(** Once the writer is built, the output file is the header line followed
    by rows, whatever happens; and when the run completes, the total of its
    final message is the number of those rows, which is also the sum of the
    counts of its page messages. *)
Lemma total_counts_rows_with_writer (old : list csv_line) :
  exists rows,
    w_file (snd (run args (initial old)))
    = HeaderLine header :: List.map RowLine rows
    /\ (fst (run args (initial old)) = Ok tt ->
        printed_rows (w_trace (snd (run args (initial old))))
        = Z.of_nat (List.length rows)
        /\ exists pre,
             w_trace (snd (run args (initial old)))
             = pre ++ [EvPrint (MsgSaved (Z.of_nat (List.length rows)))]).
Proof.
  rewrite run_initial.
  destruct (loop args (py_range 1 (pages args + 1)) (vars0 args) opened)
    as [[[ex vars]|e] w'] eqn:E.
  - destruct (page_loop_total _ _ _ _ _ _ E) as [rows [Hf [Ht Hp]]].
    exists rows. cbn [snd fst logged w_file w_trace].
    split; [exact Hf|]. intros _.
    rewrite printed_rows_app, Hp. cbn [printed_rows opened w_trace vars0 total] in *.
    split; [lia|]. exists (w_trace w'). now rewrite Ht.
  - apply page_loop_events in E.
    destruct E as [rows [evs [-> _]]].
    exists rows. cbn [snd fst]. split; [reflexivity | discriminate].
Qed.

Lemma py_range_first (hi : Z) :
  (1 < hi)%Z -> py_range 1 hi = 1%Z :: py_range 2 hi.
Proof.
  intros H. rewrite (py_range_split 1 1 hi) by lia.
  now rewrite (py_range_empty 1 1) by lia.
Qed.

(** X11.  A delay that [time.sleep] rejects ends the run after the first
    page that gives a next URL, also with a budget of one page: the rows of
    that page are written, the wait is attempted, and no final message is
    printed. *)
Theorem rejected_delay_aborts (old : list csv_line) (e : exn) (soup : Soup)
    (rows : list Row) (next_url : option pystr) (u : pystr) :
  sleep_check (delay args) = Some e ->
  (1 <= pages args)%Z ->
  http_get 0 (start_url args) = inr soup ->
  extract_page urljoin (start_url args) (max_price args) soup
  = Ok (rows, next_url) ->
  next_page next_url = Some u ->
  run args (initial old)
  = (Raise e,
     {| w_file := HeaderLine header :: List.map RowLine rows;
        w_trace := [EvGet (start_url args);
                    EvPrint (MsgPage 1 (Z.of_nat (List.length rows)));
                    EvSleep (delay args)] |}).
Proof.
  intros Hs Hp Hget Hex Hnx.
  rewrite run_initial, py_range_first by lia.
  rewrite page_loop_step. cbv zeta.
  change (count_gets (w_trace opened)) with O.
  change (current (vars0 args)) with (start_url args).
  now rewrite Hget, Hex, Hnx, Hs.
Qed.

(** X12.  A next link without [href] attribute raises [KeyError] once all
    cards of the page have been read: the run ends there and none of the
    rows of that page is written. *)
Theorem next_link_without_href (page_num : Z) (later : list Z)
    (vars : LoopVars) (w : World) (soup : Soup) (next_a : Anchor) :
  http_get (count_gets (w_trace w)) (current vars) = inr soup ->
  (forall card, In card (soup_cards soup) -> ~ lacks_element card) ->
  soup_next_a soup = Some next_a -> a_href next_a = None ->
  extract_page urljoin (current vars) (max_price args) soup = Raise KeyError
  /\ loop args (page_num :: later) vars w
     = (Raise KeyError, logged w [EvGet (current vars)]).
Proof.
  intros Hget Hcards Hnext Hhref.
  assert (Hex : extract_page urljoin (current vars) (max_price args) soup
                = Raise KeyError).
  { rewrite extract_page_eq.
    destruct (extract_all_complete urljoin (current vars) _ Hcards)
      as [all [-> _]].
    cbn [rbind]. unfold next_link. now rewrite Hnext, Hhref. }
  split; [exact Hex|].
  rewrite page_loop_step. cbv zeta. now rewrite Hget, Hex.
Qed.

Lemma page_loop_pages_irrelevant (n : Z) (nums : list Z) :
  forall vars w,
    loop (with_pages args n) nums vars w = loop args nums vars w.
Proof.
  induction nums as [|p later IH]; intros vars w; [reflexivity|].
  rewrite !page_loop_step. cbv zeta. cbn [with_pages max_price delay].
  destruct (http_get _ _) as [f|soup]; [reflexivity|].
  destruct (extract_page _ _ _ _) as [[rows nu]|e]; [|reflexivity].
  destruct (next_page nu); [|reflexivity].
  destruct (sleep_check _); [reflexivity | apply IH].
Qed.

Lemma run_with_pages (old : list csv_line) (n : Z) :
  run (with_pages args n) (initial old) =
  match loop args (py_range 1 (n + 1)) (vars0 args) opened with
  | (Ok (_, vars), w') => (Ok tt, logged w' [EvPrint (MsgSaved (total vars))])
  | (Raise e, w') => (Raise e, w')
  end.
Proof.
  rewrite run_initial, page_loop_pages_irrelevant. reflexivity.
Qed.

(** X13.  A larger page budget only adds to the file: with one page more,
    the file of the run starts with the file of the run before.  And a run
    that raised, or that completed without a wait after its last request,
    is the same run under the larger budget. *)
Theorem larger_budget_appends (old : list csv_line) (n : Z) :
  (0 <= n)%Z ->
  (exists more,
     w_file (snd (run (with_pages args (n + 1)) (initial old)))
     = w_file (snd (run (with_pages args n) (initial old)))
       ++ List.map RowLine more)
  /\ ((exists e, fst (run (with_pages args n) (initial old)) = Raise e)
      \/ ((1 <= n)%Z
          /\ fst (run (with_pages args n) (initial old)) = Ok tt
          /\ trailing_waits (w_trace (snd (run (with_pages args n) (initial old))))
             = 0%nat) ->
      run (with_pages args (n + 1)) (initial old)
      = run (with_pages args n) (initial old)).
Proof.
  intros Hn. rewrite !run_with_pages.
  rewrite (py_range_split 1 (n + 1) (n + 1 + 1)) by lia.
  rewrite (py_range_empty (n + 1 + 1) (n + 1 + 1)) by lia.
  rewrite page_loop_app.
  destruct (loop args (py_range 1 (n + 1)) (vars0 args) opened)
    as [[[[|] vars]|e] w'] eqn:E.
  - split; [|reflexivity]. exists []. cbn. now rewrite app_nil_r.
  - destruct (loop args [(n + 1)%Z] vars w') as [r2 w2] eqn:E2.
    pose proof (page_loop_events _ _ _ _ _ _ _ _ _ E2) as H2.
    destruct H2 as [rows [evs [-> _]]].
    split.
    + exists rows. destruct r2 as [[ex v2]|e2]; reflexivity.
    + intros [[e He]|[H1 [_ Ht]]]; [discriminate He|]. exfalso.
      apply page_loop_events in E.
      destruct E as [rows1 [evs1 [-> [_ [_ [_ [_ Hd]]]]]]].
      cbn [loop_done] in Hd. destruct Hd as [_ [_ Hlast]].
      destruct Hlast as [pre [u [m ->]]].
      { intros Hnil. apply (f_equal (@List.length Z)) in Hnil.
        rewrite py_range_length in Hnil. simpl in Hnil. lia. }
      cbn [snd logged advanced w_trace opened app] in Ht.
      rewrite <- app_assoc in Ht. cbn [app] in Ht.
      rewrite trailing_waits_snoc_get in Ht by reflexivity.
      discriminate Ht.
  - split; [|reflexivity]. exists []. cbn. now rewrite app_nil_r.
Qed.

Lemma io_events_app (a b : list event) :
  io_events (a ++ b) = io_events a ++ io_events b.
Proof. apply filter_app. Qed.

Lemma count_gets_io (tr : list event) :
  count_gets (io_events tr) = count_gets tr.
Proof.
  unfold count_gets, io_events, is_io.
  induction tr as [|e t IH]; [reflexivity|].
  cbn [List.filter]. destruct e; cbn [is_get is_sleep orb List.filter List.length];
    now rewrite IH.
Qed.

Lemma page_loop_filter_irrelevant (lim1 lim2 : option float) (nums : list Z) :
  forall v1 v2 w1 w2,
    current v1 = current v2 ->
    io_events (w_trace w1) = io_events (w_trace w2) ->
    outline (fst (loop (with_max_price args lim1) nums v1 w1))
    = outline (fst (loop (with_max_price args lim2) nums v2 w2))
    /\ io_events (w_trace (snd (loop (with_max_price args lim1) nums v1 w1)))
       = io_events (w_trace (snd (loop (with_max_price args lim2) nums v2 w2))).
Proof.
  induction nums as [|p later IH]; intros v1 v2 w1 w2 Hcur Hio.
  - rewrite !page_loop_nil. cbn [fst snd outline]. now rewrite Hcur.
  - rewrite !page_loop_step. cbv zeta. cbn [with_max_price max_price delay].
    rewrite <- (count_gets_io (w_trace w1)), Hio, count_gets_io, Hcur.
    destruct (http_get _ _) as [f|soup].
    { cbn [fst snd outline logged w_trace]. now rewrite !io_events_app, Hio. }
    rewrite !extract_page_eq.
    destruct (extract_all urljoin (current v2) (soup_cards soup)) as [all|e];
      cbn [rbind].
    2:{ cbn [fst snd outline logged w_trace]. now rewrite !io_events_app, Hio. }
    destruct (next_link urljoin (current v2) soup) as [nu|e]; cbn [rbind].
    2:{ cbn [fst snd outline logged w_trace]. now rewrite !io_events_app, Hio. }
    destruct (next_page nu) as [u|].
    2:{ cbn [fst snd outline advanced w_trace current].
        now rewrite !io_events_app, Hio. }
    destruct (sleep_check (delay args)) as [e|].
    { cbn [fst snd outline advanced w_trace]. now rewrite !io_events_app, Hio. }
    apply IH; [reflexivity|].
    cbn [advanced w_trace]. now rewrite !io_events_app, Hio.
Qed.

(** X14.  The maximum price changes what is written, not what is requested:
    under any two maximum prices the run makes the same requests and waits
    in the same order, and ends in the same way. *)
Theorem filter_spares_requests (old : list csv_line) (lim1 lim2 : option float) :
  fst (run (with_max_price args lim1) (initial old))
  = fst (run (with_max_price args lim2) (initial old))
  /\ io_events (w_trace (snd (run (with_max_price args lim1) (initial old))))
     = io_events (w_trace (snd (run (with_max_price args lim2) (initial old)))).
Proof.
  rewrite !run_initial.
  destruct (page_loop_filter_irrelevant lim1 lim2
              (py_range 1 (pages args + 1))
              (vars0 (with_max_price args lim1))
              (vars0 (with_max_price args lim2)) opened opened
              eq_refl eq_refl) as [Ho Hio].
  cbn [with_max_price pages] in *.
  destruct (loop (with_max_price args lim1) _ _ _) as [[[ex1 x1]|e1] w1'];
    destruct (loop (with_max_price args lim2) _ _ _) as [[[ex2 x2]|e2] w2'];
    cbn [fst snd outline logged w_trace] in *; try discriminate.
  - split; [reflexivity|]. now rewrite !io_events_app, Hio.
  - split; [now inversion Ho | exact Hio].
Qed.

End DriverMore.

(** ** Closed instances of the further properties *)

Lemma price_value_of_page_text_witness :
  exists text,
    card_price_color (sample_card (str "item_1/index.html")
                        (a_circ :: pound :: str "51.77")) = Some text
    /\ Some (lit 51.77) = parse_price (Some text)
    /\ Some (lit 51.77) = parse_price (Some (pound :: str "51.77")).
Proof.
  apply (price_value_of_page_text UrlJoin.urljoin sample_page_url
           (sample_card (str "item_1/index.html")
              (a_circ :: pound :: str "51.77"))
           {| title := str "A Light in the Attic";
              price_raw := pound :: str "51.77";
              price_value := Some (lit 51.77);
              stock := str "In stock";
              url := str "https://example.com/catalogue/item_1/index.html" |}).
  vm_compute. reflexivity.
Defined.

Lemma title_is_stripped_attribute_witness :
  exists h3 a pre post,
    card_h3 (priced "51.77") = Some h3 /\ h3_a h3 = Some a
    /\ attr_get (a_title a) [] = pre ++ str "A Light in the Attic" ++ post
    /\ List.forallb is_space pre = true /\ List.forallb is_space post = true
    /\ starts_with_space (str "A Light in the Attic") = false
    /\ ends_with_space (str "A Light in the Attic") = false
    /\ (a_title a = None -> str "A Light in the Attic" = []).
Proof.
  apply (title_is_stripped_attribute UrlJoin.urljoin sample_page_url
           (priced "51.77")
           {| title := str "A Light in the Attic";
              price_raw := pound :: str "51.77";
              price_value := Some (lit 51.77);
              stock := str "In stock";
              url := str "https://example.com/catalogue/item_1/index.html" |}).
  vm_compute. reflexivity.
Defined.

Lemma filter_changes_rows_only_witness :
  extract_page UrlJoin.urljoin sample_page_url None page1_soup
  = Ok (rows_of (extract_page UrlJoin.urljoin sample_page_url None page1_soup),
        Some page2_url)
  /\ extract_page UrlJoin.urljoin sample_page_url (Some (lit 20)) page1_soup
     = Ok (List.filter (keeps (Some (lit 20)))
             (rows_of (extract_page UrlJoin.urljoin sample_page_url None
                         page1_soup)),
           Some page2_url)
  /\ extract_page UrlJoin.urljoin sample_page_url None damaged_soup
     = Raise AttributeError
  /\ extract_page UrlJoin.urljoin sample_page_url (Some (lit 20)) damaged_soup
     = Raise AttributeError.
Proof.
  assert (H : extract_page UrlJoin.urljoin sample_page_url None page1_soup
              = Ok (rows_of (extract_page UrlJoin.urljoin sample_page_url None
                               page1_soup),
                    Some page2_url)) by (vm_compute; reflexivity).
  assert (Hd : extract_page UrlJoin.urljoin sample_page_url None damaged_soup
               = Raise AttributeError) by (vm_compute; reflexivity).
  split; [exact H|]. split; [|split; [exact Hd|]].
  - exact (proj1 (filter_changes_rows_only UrlJoin.urljoin sample_page_url
                    page1_soup) _ _ H (Some (lit 20))).
  - exact (proj2 (filter_changes_rows_only UrlJoin.urljoin sample_page_url
                    damaged_soup) _ _ Hd (Some (lit 20))).
Defined.

Lemma higher_limit_keeps_rows_witness :
  PyFloat.leb (lit 20) (lit 30) = true
  /\ exists more,
       extract_page UrlJoin.urljoin sample_page_url (Some (lit 30)) page1_soup
       = Ok (more, Some page2_url)
       /\ (forall r,
             In r (rows_of (extract_page UrlJoin.urljoin sample_page_url
                              (Some (lit 20)) page1_soup)) ->
             In r more)
       /\ (List.length (rows_of (extract_page UrlJoin.urljoin sample_page_url
                                   (Some (lit 20)) page1_soup))
           <= List.length more)%nat.
Proof.
  assert (Hle : PyFloat.leb (lit 20) (lit 30) = true) by (vm_compute; reflexivity).
  split; [exact Hle|].
  apply (higher_limit_keeps_rows UrlJoin.urljoin sample_page_url page1_soup
           (lit 20) (lit 30) _ _ Hle).
  vm_compute. reflexivity.
Defined.

Lemma rejected_delay_aborts_witness :
  sample_sleep (delay hasty_args) = Some ValueError
  /\ (1 <= pages hasty_args)%Z
  /\ main_with_writer UrlJoin.urljoin sample_web sample_sleep hasty_args (initial [])
     = (Raise ValueError,
        {| w_file :=
             HeaderLine header
             :: List.map RowLine
                  (rows_of (extract_page UrlJoin.urljoin sample_page_url None
                              page1_soup));
           w_trace :=
             [EvGet sample_page_url;
              EvPrint (MsgPage 1
                         (Z.of_nat
                            (List.length
                               (rows_of (extract_page UrlJoin.urljoin
                                           sample_page_url None page1_soup)))));
              EvSleep (delay hasty_args)] |}).
Proof.
  assert (Hs : sample_sleep (delay hasty_args) = Some ValueError)
    by (vm_compute; reflexivity).
  assert (Hp : (1 <= pages hasty_args)%Z) by (cbn; lia).
  split; [exact Hs|]. split; [exact Hp|].
  apply (rejected_delay_aborts UrlJoin.urljoin sample_web sample_sleep
           hasty_args [] ValueError page1_soup _ (Some page2_url) page2_url
           Hs Hp); vm_compute; reflexivity.
Defined.

Lemma next_link_without_href_witness :
  extract_page UrlJoin.urljoin sample_page_url None linkless_soup
  = Raise KeyError
  /\ page_loop UrlJoin.urljoin linkless_web sample_sleep (sample_args 5 None)
       [1%Z; 2%Z] (vars0 (sample_args 5 None)) opened
     = (Raise KeyError, logged opened [EvGet sample_page_url]).
Proof.
  apply (next_link_without_href UrlJoin.urljoin linkless_web sample_sleep
           (sample_args 5 None) 1%Z [2%Z] (vars0 (sample_args 5 None)) opened
           linkless_soup {| a_title := None; a_href := None |}).
  - vm_compute. reflexivity.
  - intros card [<-|[]] [H|[[h3 [Hh Hn]]|[H|H]]]; try discriminate.
    inversion Hh; subst. discriminate.
  - reflexivity.
  - reflexivity.
Defined.

Lemma larger_budget_appends_witness :
  (0 <= 2)%Z
  /\ (1 <= 2)%Z
  /\ fst (main_with_writer UrlJoin.urljoin sample_web sample_sleep
            (with_pages (sample_args 5 None) 2) (initial [])) = Ok tt
  /\ trailing_waits
       (w_trace (snd (main_with_writer UrlJoin.urljoin sample_web sample_sleep
                        (with_pages (sample_args 5 None) 2) (initial []))))
     = 0%nat
  /\ main_with_writer UrlJoin.urljoin sample_web sample_sleep
       (with_pages (sample_args 5 None) (2 + 1)) (initial [])
     = main_with_writer UrlJoin.urljoin sample_web sample_sleep
         (with_pages (sample_args 5 None) 2) (initial []).
Proof.
  assert (H0 : (0 <= 2)%Z) by lia.
  assert (H1 : (1 <= 2)%Z) by lia.
  assert (Hok : fst (main_with_writer UrlJoin.urljoin sample_web sample_sleep
                       (with_pages (sample_args 5 None) 2) (initial [])) = Ok tt)
    by (vm_compute; reflexivity).
  assert (Ht : trailing_waits
                 (w_trace (snd (main_with_writer UrlJoin.urljoin sample_web sample_sleep
                                  (with_pages (sample_args 5 None) 2)
                                  (initial []))))
               = 0%nat) by (vm_compute; reflexivity).
  split; [exact H0|]. split; [exact H1|]. split; [exact Hok|]. split; [exact Ht|].
  exact (proj2 (larger_budget_appends UrlJoin.urljoin sample_web sample_sleep
                  (sample_args 5 None) [] 2 H0)
           (or_intror (conj H1 (conj Hok Ht)))).
Defined.

Lemma rows_follow_cards_witness :
  extract_page UrlJoin.urljoin sample_page_url None page1_soup
  = Ok (rows_of (extract_page UrlJoin.urljoin sample_page_url None page1_soup),
        Some page2_url)
  /\ List.length
       (rows_of (extract_page UrlJoin.urljoin sample_page_url None page1_soup))
     = List.length (soup_cards page1_soup).
Proof.
  assert (H : extract_page UrlJoin.urljoin sample_page_url None page1_soup
              = Ok (rows_of (extract_page UrlJoin.urljoin sample_page_url None
                               page1_soup),
                    Some page2_url)) by (vm_compute; reflexivity).
  split; [exact H|].
  destruct (rows_follow_cards UrlJoin.urljoin _ _ _ _ _ H)
    as [all [_ [_ [_ Hnone]]]].
  exact (proj2 (Hnone eq_refl)).
Defined.

(** ** The whole run: opening the file and building the writer *)

Section SetupFacts.

Variable urljoin : pystr -> pystr -> pystr.
Variable http_get : nat -> pystr -> http_failure + Soup.
Variable sleep_check : float -> option exn.
Variable open_check : pystr -> option exn.
Variable writer_check : pystr -> option exn.
Variable args : Args.

Local Abbreviation whole :=
  (main urljoin http_get sleep_check open_check writer_check).
Local Abbreviation run := (main_with_writer urljoin http_get sleep_check).

(** When the file opens and the writer is built, [main] is the run that the
    properties of the driver are about. *)
Lemma main_after_setup (w : World) :
  open_check (out args) = None -> writer_check (sep args) = None ->
  whole args w = run args w.
Proof.
  intros Ho Hw. unfold main, main_with_writer, open_out, make_writer.
  rewrite Ho, Hw. reflexivity.
Qed.

(** When the file cannot be opened, nothing is touched. *)
Lemma main_open_fails (w : World) (e : exn) :
  open_check (out args) = Some e -> whole args w = (Raise e, w).
Proof.
  intros Ho. unfold main, open_out. rewrite Ho. reflexivity.
Qed.

(** When the writer is refused, the file has been emptied and nothing else
    has happened. *)
Lemma main_writer_fails (w : World) (e : exn) :
  open_check (out args) = None -> writer_check (sep args) = Some e ->
  whole args w = (Raise e, {| w_file := []; w_trace := w_trace w |}).
Proof.
  intros Ho Hw. unfold main, open_out, make_writer.
  rewrite Ho, Hw. reflexivity.
Qed.



End SetupFacts.



